(** * DenselineLaneDetector: geometry and life-cycle of the lane detector

    A shallow embedding of
    [modules/perception/camera/lib/lane/detector/denseline/denseline_lane_detector.cc]
    ([DenselineLaneDetector::Init], [::Detect], [::Name]) and the properties
    of the configuration / geometry / frame contract that follow from it.

    The member functions mutate the detector object, write to the log, call
    the inference engine, the data provider and the GPU kernels, and may be
    terminated by a failed [CHECK].  They are embedded in a small monad
    [Run] that carries the chronological list of observable events and an
    outcome that is either a normal completion, a fatal [CHECK] failure or
    a crash (dereference of a null pointer, index out of range).  The
    detector object and the camera frame are passed explicitly.

    Machine arithmetic is written out: the eight size members of the
    detector are 16-bit unsigned integers ([uint16_t]), the scale is a
    single-precision number ([binary32]) and the product of a size and
    the scale is a single-precision product ([float_mul]). *)

From Stdlib Require Import ZArith QArith Lia.
From stdpp Require Import base strings list gmap.

Local Open Scope string_scope.
Local Open Scope list_scope.
Local Open Scope Z_scope.

(** ** Data model *)

(** [base::Color]: the two values the detector selects between. *)
Inductive Color : Type := RGB | BGR.

(** [base::RectI], the crop region handed to the data provider. *)
Module RectI.
Record t : Type := mk { x : Z; y : Z; width : Z; height : Z }.
End RectI.

(** [DataProvider::ImageOptions]. *)
Record ImageOptions : Type := {
  target_color : Color;
  do_crop : bool;
  crop_roi : RectI.t
}.

(** [base::Blob<float>] as the detector sees it: the identity of the buffer
    and the three shape accessors [channels()], [height()], [width()]. *)
Record Blob : Type := {
  blob_id : Z;
  channels : Z;
  height : Z;
  width : Z
}.

(** [base::Image8U]: a device-resident image, identified by its handle. *)
Record Image8U : Type := { image_id : Z }.

(** [base::BaseCameraModel]: only the two getters are used. *)
Record BaseCameraModel : Type := {
  get_height : Z;
  get_width : Z
}.

(** Modelled from the spec: the message definition of the parsed
    configuration ([denseline::DenselineParam] and its two sub-messages)
    is not among the sources.  The fields are the accessors [Init] reads.
    The resize scale is "a positive rational" in the data model of the
    specification and is a [Q] here: the number written in the
    configuration, which the detector holds in single precision (see
    [binary32]).  Sizes, offsets and mean values are integers ([Z]); the
    sizes and offsets need not fit the members they are assigned to (see
    [uint16_t]), the mean values are taken within the range of [int]. *)
Record ModelParam : Type := {
  model_name : string;
  proto_file : string;
  weight_file : string;
  model_type : string;
  resize_scale : Q;
  input_offset_y : Z;
  input_offset_x : Z;
  crop_height : Z;
  crop_width : Z;
  is_bgr : bool;
  mean_b : Z;
  mean_g : Z;
  mean_r : Z
}.

Record NetworkParam : Type := {
  in_blob : string;
  out_blob : string;
  internal_blob_int8 : list string
}.

Record DenselineParam : Type := {
  model_param : ModelParam;
  net_param : NetworkParam
}.

(** [LaneDetectorInitOptions]; a null [base_camera_model] is [None]. *)
Record LaneDetectorInitOptions : Type := {
  root_dir : string;
  conf_file : string;
  base_camera_model : option BaseCameraModel;
  gpu_id : Z
}.

(** [LaneDetectorOptions] carries nothing that [Detect] reads. *)
Record LaneDetectorOptions : Type := mkLaneDetectorOptions { }.

(** [DataProvider]: the native size of the frame and [GetImage], which
    either fails ([None]) or yields the cropped, colour-converted image. *)
Record DataProvider : Type := {
  src_width : Z;
  src_height : Z;
  GetImage : ImageOptions -> option Image8U
}.

(** [CameraFrame]: the two members [Detect] touches.  Both are pointers,
    a null pointer is [None]. *)
Record CameraFrame : Type := {
  data_provider : option DataProvider;
  lane_detected_blob : option Blob
}.

(** ** Observable events *)

Inductive Severity : Type := SevDEBUG | SevINFO | SevWARNING | SevERROR.

(** [AINFO] and [AERROR] lines are recorded with their literal text (and the
    streamed name where it is a string; streamed numbers are left out).
    Calls into the collaborators that have an effect are recorded with
    their arguments.  [get_blob], a lookup, leaves no event; [ADEBUG] lines
    are not recorded. *)
Inductive Event : Type :=
  | Log (sev : Severity) (text : string)
  | Call_GetProtoFromFile (path : string)
  | Call_cudaGetDeviceProperties (device : Z)
  | Call_CreateInferenceByName
      (name proto weight : string) (outputs inputs : list string)
      (root : string)
  | Call_set_gpu_id (device : Z)
  | Call_net_Init (shapes : gmap string (list Z))
  | Call_GetImage (options : ImageOptions)
  | Call_ResizeGPU (src : Image8U) (dst : Blob) (origin_width : Z)
      (start_axis : Z) (mean0 mean1 mean2 : Z) (channel_axis : bool)
      (scale : Q)
  | Call_cudaDeviceSynchronize
  | Call_Infer.

(** Severity order of the log: DEBUG < INFO < WARNING < ERROR. *)
Definition severity_rank (s : Severity) : Z :=
  match s with
  | SevDEBUG => 0 | SevINFO => 1 | SevWARNING => 2 | SevERROR => 3
  end.

Definition at_least_warning (s : Severity) : bool :=
  severity_rank SevWARNING <=? severity_rank s.

(** ** The monad of a member function *)

Inductive Outcome (A : Type) : Type :=
  | Done (a : A)          (* the function returned *)
  | Fatal (msg : string)  (* a CHECK failed: the process is terminated *)
  | Crash.                (* null dereference, index out of range *)
Arguments Done {A} a.
Arguments Fatal {A} msg.
Arguments Crash {A}.

Definition Run (A : Type) : Type := (list Event * Outcome A)%type.

Definition events {A} (r : Run A) : list Event := fst r.
Definition outcome {A} (r : Run A) : Outcome A := snd r.

#[export] Instance Run_ret : MRet Run := fun A a => ([], Done a).

#[export] Instance Run_bind : MBind Run := fun A B f m =>
  match m with
  | (tr, Done a) => let '(tr', o) := f a in (tr ++ tr', o)
  | (tr, Fatal msg) => (tr, Fatal msg)
  | (tr, Crash) => (tr, Crash)
  end.

Definition emit (e : Event) : Run unit := ([e], Done tt).
Definition fatal {A} (msg : string) : Run A := ([], Fatal msg).
Definition crash {A} : Run A := ([], Crash).

Definition AINFO (text : string) : Run unit := emit (Log SevINFO text).
Definition AERROR (text : string) : Run unit := emit (Log SevERROR text).

(** [CHECK(cond) << msg] of the logging library (glog): nothing happens
    when the condition holds; otherwise the message is logged at severity
    FATAL and the process is terminated. *)
Definition CHECK (cond : bool) (msg : string) : Run unit :=
  if cond then mret tt else fatal msg.
Definition CHECK_LE (a b : Z) (msg : string) : Run unit := CHECK (a <=? b) msg.
Definition CHECK_EQ (a b : Z) (msg : string) : Run unit := CHECK (a =? b) msg.

(** Dereference of a pointer. *)
Definition deref {A} (p : option A) : Run A :=
  match p with Some a => mret a | None => crash end.

(** A range-based [for] over a vector. *)
Fixpoint for_each {A} (l : list A) (body : A -> Run unit) : Run unit :=
  match l with
  | [] => mret tt
  | a :: l' => body a ;; for_each l' body
  end.

(** ** Machine arithmetic *)

(** Assignment to a 16-bit unsigned member: the value modulo 2^16. *)
Definition uint16_t (z : Z) : Z := z mod 65536.

(** Rounding of the fraction [n / d] ([0 <= n], [0 < d]) to the nearest
    integer, a tie to the even one. *)
Definition round_half_even (n d : Z) : Z :=
  let q := n / d in
  let r := n mod d in
  if 2 * r <? d then q
  else if d <? 2 * r then q + 1
  else if Z.even q then q else q + 1.

(** The fraction [a / (d * 2^e)], for an exponent [e] of either sign. *)
Definition scale_by_pow2 (a d e : Z) : Z * Z :=
  if 0 <=? e then (a, d * 2 ^ e) else (a * 2 ^ (- e), d).

(** The single-precision number nearest to [q] (IEEE 754 binary32,
    round to nearest, ties to even): a significand [m] of at most 24 bits
    and an exponent [e] with [|q|] nearest to [m * 2^e].  The exponent is
    not bounded: numbers beyond the range of binary32 (above 2^128 or
    below 2^-126 in magnitude) are outside this model. *)
Definition binary32 (q : Q) : Q :=
  let n := Qnum q in
  let d := Z.pos (Qden q) in
  if n =? 0 then 0%Q
  else
    let a := Z.abs n in
    let e0 := Z.log2 a - Z.log2 d - 23 in
    let e :=
      let '(x, y) := scale_by_pow2 a d e0 in
      if x <? 2 ^ 23 * y then e0 - 1 else e0 in
    let '(x, y) := scale_by_pow2 a d e in
    let m := Z.sgn n * round_half_even x y in
    if 0 <=? e then inject_Z (m * 2 ^ e)
    else Qmake m (Z.to_pos (2 ^ (- e))).

(** The product of two single-precision numbers, in single precision. *)
Definition float_mul (a b : Q) : Q := binary32 (a * b)%Q.

(** Conversion of a floating-point value to an integer: the fractional
    part is discarded (truncation toward zero). *)
Definition float_to_int (q : Q) : Z := Z.quot (Qnum q) (Z.pos (Qden q)).

(** Conversion of a floating-point value to a 16-bit unsigned member.
    A value whose whole part is from 0 to 2^16 - 1 is converted to that
    whole part.  Outside this range the language leaves the result
    undefined; the model follows the compiled conversion of x86-64,
    which truncates to a 32-bit integer and keeps the low 16 bits, the
    32-bit integer being 0x80000000 (low bits 0) when the value does not
    fit 32 bits. *)
Definition float_to_uint16_t (q : Q) : Z :=
  let z := float_to_int q in
  if (- 2 ^ 31 <=? z) && (z <? 2 ^ 31) then uint16_t z else 0.

(** The statement [member = size * scale] for a 16-bit unsigned member, a
    16-bit unsigned size and a single-precision scale: the size is
    converted to single precision (exactly, it is below 2^24), the
    product is rounded to single precision, and the assignment converts
    the product to the member's type. *)
Definition scaled_size (size : Z) (scale : Q) : Z :=
  float_to_uint16_t (float_mul (inject_Z size) scale).

(** ** The inference engine

    [inference::Inference] is an abstract class; the detector uses four of
    its member functions.  The engine object is a state of type [Net]. *)
Class Inference (Net : Type) : Type := {
  net_Init : gmap string (list Z) -> Net -> bool * Net;
  net_Infer : Net -> Net;
  net_get_blob : string -> Net -> option Blob;
  net_set_gpu_id : Z -> Net -> Net
}.

(** The result of [GetProtoFromFile(path, &message)].  The parser
    writes through the pointer it is given: when it succeeds the message
    is the parsed configuration; when it fails it returns [false] and
    the message holds what the parser left there, a function of what it
    held before. *)
Inductive ParseResult : Type :=
  | Parsed (param : DenselineParam)
  | ParseFailed (leaves : option DenselineParam -> option DenselineParam).

(** What [Init] obtains from outside the class: path resolution, the
    configuration file, and the engine factory. *)
Record Platform (Net : Type) : Type := {
  GetAbsolutePath : string -> string -> string;
  GetProtoFromFile : string -> ParseResult;
  CreateInferenceByName :
    string -> string -> string -> list string -> list string -> string ->
    option Net
}.
Arguments GetAbsolutePath {Net} _ _ _.
Arguments GetProtoFromFile {Net} _ _.
Arguments CreateInferenceByName {Net} _ _ _ _ _ _ _.

(** ** The detector object *)

(** Modelled from the spec: the class header, which declares the members
    and their types, is not among the sources.  The members are those the
    two member functions assign or read.  The eight sizes and offsets
    are [uint16_t] members: a [Z] that the assignment of an integer takes
    modulo 2^16 and the assignment of a product converts from single
    precision ([float_to_uint16_t]).
    [image_scale_] is a [float]: a [Q] that the assignment rounds to
    single precision.  [image_mean_] is an array of three [int].
    [denseline_param_] and [image_src_] are [None] until they are first
    assigned. *)
Record DenselineLaneDetector (Net : Type) : Type := {
  rt_net_ : option Net;
  base_camera_model_ : option BaseCameraModel;
  denseline_param_ : option DenselineParam;
  input_height_ : Z;
  input_width_ : Z;
  input_offset_y_ : Z;
  input_offset_x_ : Z;
  crop_height_ : Z;
  crop_width_ : Z;
  resize_height_ : Z;
  resize_width_ : Z;
  image_mean_ : Z * Z * Z;
  image_scale_ : Q;
  data_provider_image_option_ : ImageOptions;
  net_inputs_ : list string;
  net_outputs_ : list string;
  image_src_ : option Image8U
}.
Arguments rt_net_ {Net} _.
Arguments base_camera_model_ {Net} _.
Arguments denseline_param_ {Net} _.
Arguments input_height_ {Net} _.
Arguments input_width_ {Net} _.
Arguments input_offset_y_ {Net} _.
Arguments input_offset_x_ {Net} _.
Arguments crop_height_ {Net} _.
Arguments crop_width_ {Net} _.
Arguments resize_height_ {Net} _.
Arguments resize_width_ {Net} _.
Arguments image_mean_ {Net} _.
Arguments image_scale_ {Net} _.
Arguments data_provider_image_option_ {Net} _.
Arguments net_inputs_ {Net} _.
Arguments net_outputs_ {Net} _.
Arguments image_src_ {Net} _.

(** Modelled from the spec: the constructor is declared in the class
    header.  A detector is "created Uninitialized": it has no engine and
    its two vectors of tensor names are empty; the scalar members may hold
    anything. *)
Definition constructed {Net} (d : DenselineLaneDetector Net) : Prop :=
  rt_net_ d = None /\ net_inputs_ d = [] /\ net_outputs_ d = [].

(** The member the parser writes through the pointer [Init] hands it. *)
Definition set_denseline_param_ {Net} (param : option DenselineParam)
    (d : DenselineLaneDetector Net) : DenselineLaneDetector Net :=
  {| rt_net_ := rt_net_ d;
     base_camera_model_ := base_camera_model_ d;
     denseline_param_ := param;
     input_height_ := input_height_ d;
     input_width_ := input_width_ d;
     input_offset_y_ := input_offset_y_ d;
     input_offset_x_ := input_offset_x_ d;
     crop_height_ := crop_height_ d;
     crop_width_ := crop_width_ d;
     resize_height_ := resize_height_ d;
     resize_width_ := resize_width_ d;
     image_mean_ := image_mean_ d;
     image_scale_ := image_scale_ d;
     data_provider_image_option_ := data_provider_image_option_ d;
     net_inputs_ := net_inputs_ d;
     net_outputs_ := net_outputs_ d;
     image_src_ := image_src_ d |}.

(** ** The member functions *)

Section Detector.
Context {Net : Type} `{!Inference Net}.
Variable platform : Platform Net.

Abbreviation Detector := (DenselineLaneDetector Net).

(** [bool DenselineLaneDetector::Init(const LaneDetectorInitOptions &)].

    When the configuration cannot be read the function returns [false]
    and the object holds in [denseline_param_] what the parser left
    there.  Otherwise the members are assigned one after the other in the
    source, each assignment converting to the type of the member; the
    function leaves in exactly three ways (a failed [CHECK], the engine
    refusing [Init], success), and the last two return the object with
    every assignment made, [this']. *)
Definition Init (this : Detector) (options : LaneDetectorInitOptions)
  : Run (bool * Detector) :=
  let proto_path :=
    GetAbsolutePath platform (root_dir options) (conf_file options) in
  emit (Call_GetProtoFromFile proto_path) ;;
  match GetProtoFromFile platform proto_path with
  | ParseFailed leaves =>
      AINFO ("load proto param failed, root dir: " +:+ root_dir options) ;;
      mret (false, set_denseline_param_ (leaves (denseline_param_ this)) this)
  | Parsed denseline_param =>
      AINFO "denseline param: " ;;
      let model_param := model_param denseline_param in
      let model_root :=
        GetAbsolutePath platform (root_dir options) (model_name model_param) in
      let proto_file :=
        GetAbsolutePath platform model_root (proto_file model_param) in
      let weight_file :=
        GetAbsolutePath platform model_root (weight_file model_param) in
      let base_camera_model := base_camera_model options in
      '(input_height, input_width) ←
        match base_camera_model with
        | None =>
            AERROR "options.intrinsic is nullptr!" ;;
            mret (1080, 1920)
        | Some camera =>
            mret (uint16_t (get_height camera), uint16_t (get_width camera))
        end;
      CHECK (0 <? input_width) "input width should be more than 0" ;;
      CHECK (0 <? input_height) "input height should be more than 0" ;;
      AINFO "input_height: " ;;
      AINFO "input_width: " ;;
      let image_scale := binary32 (resize_scale model_param) in
      let input_offset_y := uint16_t (input_offset_y model_param) in
      let input_offset_x := uint16_t (input_offset_x model_param) in
      let crop_height := uint16_t (crop_height model_param) in
      let crop_width := uint16_t (crop_width model_param) in
      CHECK_LE crop_height input_height
        "crop height larger than input height" ;;
      CHECK_LE crop_width input_width
        "crop width larger than input width" ;;
      let '(target_color, image_mean) :=
        if is_bgr model_param
        then (BGR, (mean_b model_param, mean_g model_param, mean_r model_param))
        else (RGB, (mean_r model_param, mean_g model_param, mean_b model_param))
      in
      let data_provider_image_option :=
        {| target_color := target_color;
           do_crop := true;
           crop_roi := RectI.mk input_offset_x input_offset_y
                                crop_width crop_height |} in
      emit (Call_cudaGetDeviceProperties (gpu_id options)) ;;
      AINFO "GPU: " ;;
      let net_param := net_param denseline_param in
      let net_inputs := net_inputs_ this ++ [in_blob net_param] in
      let net_outputs :=
        (net_outputs_ this ++ [out_blob net_param])
          ++ internal_blob_int8 net_param in
      for_each net_inputs
        (fun name => AINFO ("net input blobs: " +:+ name)) ;;
      for_each net_outputs
        (fun name => AINFO ("net output blobs: " +:+ name)) ;;
      let model_type := model_type model_param in
      AINFO ("model_type: " +:+ model_type) ;;
      emit (Call_CreateInferenceByName model_type proto_file weight_file
              net_outputs net_inputs model_root) ;;
      match CreateInferenceByName platform model_type proto_file
              weight_file net_outputs net_inputs model_root with
      | None => fatal "Check failed: rt_net_ != nullptr"
      | Some rt_net =>
          emit (Call_set_gpu_id (gpu_id options)) ;;
          let rt_net := net_set_gpu_id (gpu_id options) rt_net in
          let resize_height := scaled_size crop_height image_scale in
          let resize_width := scaled_size crop_width image_scale in
          CHECK (0 <? resize_width) "resize width should be more than 0" ;;
          CHECK (0 <? resize_height) "resize height should be more than 0" ;;
          let shape := [1; 3; resize_height; resize_width] in
          input_name ← deref (net_inputs !! 0%nat);
          let input_reshape : gmap string (list Z) :=
            {[ input_name := shape ]} in
          AINFO "input_reshape: " ;;
          emit (Call_net_Init input_reshape) ;;
          let '(ok, rt_net) := net_Init input_reshape rt_net in
          let this' : Detector :=
            {| rt_net_ := Some rt_net;
               base_camera_model_ := base_camera_model;
               denseline_param_ := Some denseline_param;
               input_height_ := input_height;
               input_width_ := input_width;
               input_offset_y_ := input_offset_y;
               input_offset_x_ := input_offset_x;
               crop_height_ := crop_height;
               crop_width_ := crop_width;
               resize_height_ := resize_height;
               resize_width_ := resize_width;
               image_mean_ := image_mean;
               image_scale_ := image_scale;
               data_provider_image_option_ := data_provider_image_option;
               net_inputs_ := net_inputs;
               net_outputs_ := net_outputs;
               image_src_ := image_src_ this |} in
          if negb ok then
            AINFO "net init fail." ;;
            mret (false, this')
          else
            for_each net_inputs
              (fun input_blob_name =>
                 input_blob ← deref (net_get_blob input_blob_name rt_net);
                 AINFO (input_blob_name +:+ ": ")) ;;
            for_each net_outputs
              (fun output_blob_name =>
                 output_blob ← deref (net_get_blob output_blob_name rt_net);
                 AINFO (output_blob_name +:+ " : ")) ;;
            mret (true, this')
      end
  end.

(** The two members [Detect] assigns. *)
Definition set_image_src_ (image : Image8U) (d : Detector) : Detector :=
  {| rt_net_ := rt_net_ d;
     base_camera_model_ := base_camera_model_ d;
     denseline_param_ := denseline_param_ d;
     input_height_ := input_height_ d;
     input_width_ := input_width_ d;
     input_offset_y_ := input_offset_y_ d;
     input_offset_x_ := input_offset_x_ d;
     crop_height_ := crop_height_ d;
     crop_width_ := crop_width_ d;
     resize_height_ := resize_height_ d;
     resize_width_ := resize_width_ d;
     image_mean_ := image_mean_ d;
     image_scale_ := image_scale_ d;
     data_provider_image_option_ := data_provider_image_option_ d;
     net_inputs_ := net_inputs_ d;
     net_outputs_ := net_outputs_ d;
     image_src_ := Some image |}.

Definition set_rt_net_ (net : Net) (d : Detector) : Detector :=
  {| rt_net_ := Some net;
     base_camera_model_ := base_camera_model_ d;
     denseline_param_ := denseline_param_ d;
     input_height_ := input_height_ d;
     input_width_ := input_width_ d;
     input_offset_y_ := input_offset_y_ d;
     input_offset_x_ := input_offset_x_ d;
     crop_height_ := crop_height_ d;
     crop_width_ := crop_width_ d;
     resize_height_ := resize_height_ d;
     resize_width_ := resize_width_ d;
     image_mean_ := image_mean_ d;
     image_scale_ := image_scale_ d;
     data_provider_image_option_ := data_provider_image_option_ d;
     net_inputs_ := net_inputs_ d;
     net_outputs_ := net_outputs_ d;
     image_src_ := image_src_ d |}.

Definition set_lane_detected_blob (b : option Blob) (f : CameraFrame)
  : CameraFrame :=
  {| data_provider := data_provider f; lane_detected_blob := b |}.

(** [bool DenselineLaneDetector::Detect(const LaneDetectorOptions &options,
    CameraFrame *frame)].  A null [frame] is [None]; the result carries the
    detector and the frame as the call leaves them. *)
Definition Detect (this : Detector) (options : LaneDetectorOptions)
    (frame : option CameraFrame)
  : Run (bool * Detector * option CameraFrame) :=
  match frame with
  | None =>
      AINFO "camera frame is empty." ;;
      mret (false, this, None)
  | Some fr =>
      provider ← deref (data_provider fr);
      CHECK_EQ (input_width_ this) (src_width provider)
        "Input size is not correct: " ;;
      CHECK_EQ (input_height_ this) (src_height provider)
        "Input size is not correct: " ;;
      emit (Call_GetImage (data_provider_image_option_ this)) ;;
      match GetImage provider (data_provider_image_option_ this) with
      | None =>
          fatal "Check failed: data_provider->GetImage(data_provider_image_option_, &image_src_)"
      | Some image_src =>
          let this := set_image_src_ image_src this in
          (*  bottom 0 is data *)
          rt_net ← deref (rt_net_ this);
          input_name ← deref (net_inputs_ this !! 0%nat);
          input_blob ← deref (net_get_blob input_name rt_net);
          let blob_height := height input_blob in
          let blob_width := width input_blob in
          AINFO "input_blob: " ;;
          CHECK_EQ blob_height (resize_height_ this) "height is not equal" ;;
          CHECK_EQ blob_width (resize_width_ this) "width is not equal" ;;
          let '(mean0, mean1, mean2) := image_mean_ this in
          emit (Call_ResizeGPU image_src input_blob (crop_width_ this) 0
                  mean0 mean1 mean2 false 1%Q) ;;
          AINFO "resize gpu finish." ;;
          emit Call_cudaDeviceSynchronize ;;
          emit Call_Infer ;;
          let rt_net := net_Infer rt_net in
          let this := set_rt_net_ rt_net this in
          AINFO "infer finish." ;;
          output_name ← deref (net_outputs_ this !! 0%nat);
          let fr :=
            set_lane_detected_blob (net_get_blob output_name rt_net) fr in
          mret (true, this, Some fr)
      end
  end.

(** [std::string DenselineLaneDetector::Name() const]. *)
Definition Name (this : Detector) : string := "DenselineLaneDetector".

End Detector.

(** The native size [Init] records in [input_width_] and
    [input_height_]: the camera model's, or 1920 x 1080 when the caller
    passes no camera model (source lines 53-60). *)
Definition native_width (options : LaneDetectorInitOptions) : Z :=
  match base_camera_model options with
  | None => 1920
  | Some camera => uint16_t (get_width camera)
  end.

Definition native_height (options : LaneDetectorInitOptions) : Z :=
  match base_camera_model options with
  | None => 1080
  | Some camera => uint16_t (get_height camera)
  end.

(** The configuration [Init] reads for given options, if the parser
    succeeds. *)
Definition loaded_param {Net} (platform : Platform Net)
    (options : LaneDetectorInitOptions) : option DenselineParam :=
  match GetProtoFromFile platform
          (GetAbsolutePath platform (root_dir options) (conf_file options))
  with
  | Parsed param => Some param
  | ParseFailed _ => None
  end.

(** What [Init] records of a configuration (source lines 67-71, 125 and
    126): the scale, the offsets and the crop size as the members hold
    them, and the resized size computed from these members. *)
Definition stored_scale (param : DenselineParam) : Q :=
  binary32 (resize_scale (model_param param)).

Definition stored_offset_y (param : DenselineParam) : Z :=
  uint16_t (input_offset_y (model_param param)).

Definition stored_offset_x (param : DenselineParam) : Z :=
  uint16_t (input_offset_x (model_param param)).

Definition stored_crop_height (param : DenselineParam) : Z :=
  uint16_t (crop_height (model_param param)).

Definition stored_crop_width (param : DenselineParam) : Z :=
  uint16_t (crop_width (model_param param)).

Definition resized_height (param : DenselineParam) : Z :=
  scaled_size (stored_crop_height param) (stored_scale param).

Definition resized_width (param : DenselineParam) : Z :=
  scaled_size (stored_crop_width param) (stored_scale param).

(** ** Notions used in the statements *)

(** Every tensor name of a list is known to the engine. *)
Definition resolves {A B} (get : A -> option B) (l : list A) : bool :=
  forallb (fun a => match get a with Some _ => true | None => false end) l.

(** A rational that is a whole number. *)
Definition is_whole (q : Q) : bool := Qnum q mod Z.pos (Qden q) =? 0.

(** The same options with another camera model, and the same detector
    with another recorded camera model. *)
Definition with_camera (camera : option BaseCameraModel)
    (options : LaneDetectorInitOptions) : LaneDetectorInitOptions :=
  {| root_dir := root_dir options;
     conf_file := conf_file options;
     base_camera_model := camera;
     gpu_id := gpu_id options |}.

Definition set_base_camera_model_ {Net} (camera : option BaseCameraModel)
    (d : DenselineLaneDetector Net) : DenselineLaneDetector Net :=
  {| rt_net_ := rt_net_ d;
     base_camera_model_ := camera;
     denseline_param_ := denseline_param_ d;
     input_height_ := input_height_ d;
     input_width_ := input_width_ d;
     input_offset_y_ := input_offset_y_ d;
     input_offset_x_ := input_offset_x_ d;
     crop_height_ := crop_height_ d;
     crop_width_ := crop_width_ d;
     resize_height_ := resize_height_ d;
     resize_width_ := resize_width_ d;
     image_mean_ := image_mean_ d;
     image_scale_ := image_scale_ d;
     data_provider_image_option_ := data_provider_image_option_ d;
     net_inputs_ := net_inputs_ d;
     net_outputs_ := net_outputs_ d;
     image_src_ := image_src_ d |}.

Definition map_outcome {A B} (f : A -> B) (o : Outcome A) : Outcome B :=
  match o with
  | Done a => Done (f a)
  | Fatal msg => Fatal msg
  | Crash => Crash
  end.

(** The resolved geometry of a detector: native size, crop region, scale
    and resized size. *)
Definition resolved_geometry {Net} (d : DenselineLaneDetector Net)
  : Z * Z * (Z * Z * Z * Z) * Q * (Z * Z) :=
  (input_width_ d, input_height_ d,
   (input_offset_x_ d, input_offset_y_ d, crop_width_ d, crop_height_ d),
   image_scale_ d,
   (resize_width_ d, resize_height_ d)).

(** The collaborator calls in a list of events (the log lines removed). *)
Definition is_call (e : Event) : bool :=
  match e with Log _ _ => false | _ => true end.

Fixpoint calls (tr : list Event) : list Event :=
  match tr with
  | [] => []
  | e :: tr' => if is_call e then e :: calls tr' else calls tr'
  end.

(** The tests of [Init] on the geometry, in the order of the source:
    the two on the native size, the two on the crop size, the two on the
    resized size. *)
Definition geometry_checks (options : LaneDetectorInitOptions)
    (param : DenselineParam) : bool :=
  (0 <? native_width options) && (0 <? native_height options)
  && (stored_crop_height param <=? native_height options)
  && (stored_crop_width param <=? native_width options)
  && (0 <? resized_width param)
  && (0 <? resized_height param).

(** The members of [d] are those [Init] assigns from [options] and [param]
    on an object that was [this]. *)
Definition configured {Net} (this : DenselineLaneDetector Net)
    (options : LaneDetectorInitOptions) (param : DenselineParam)
    (d : DenselineLaneDetector Net) : Prop :=
  let mp := model_param param in
  let np := net_param param in
  base_camera_model_ d = base_camera_model options
  /\ denseline_param_ d = Some param
  /\ input_height_ d = native_height options
  /\ input_width_ d = native_width options
  /\ input_offset_y_ d = stored_offset_y param
  /\ input_offset_x_ d = stored_offset_x param
  /\ crop_height_ d = stored_crop_height param
  /\ crop_width_ d = stored_crop_width param
  /\ image_scale_ d = stored_scale param
  /\ resize_height_ d = resized_height param
  /\ resize_width_ d = resized_width param
  /\ image_mean_ d
     = (if is_bgr mp then (mean_b mp, mean_g mp, mean_r mp)
        else (mean_r mp, mean_g mp, mean_b mp))
  /\ data_provider_image_option_ d
     = {| target_color := if is_bgr mp then BGR else RGB;
          do_crop := true;
          crop_roi := RectI.mk (stored_offset_x param) (stored_offset_y param)
                               (stored_crop_width param)
                               (stored_crop_height param) |}
  /\ net_inputs_ d = net_inputs_ this ++ [in_blob np]
  /\ net_outputs_ d
     = (net_outputs_ this ++ [out_blob np]) ++ internal_blob_int8 np
  /\ image_src_ d = image_src_ this.

(** The line logged for a missing camera model. *)
Definition camera_log (options : LaneDetectorInitOptions) : list Event :=
  match base_camera_model options with
  | None => [Log SevERROR "options.intrinsic is nullptr!"]
  | Some _ => []
  end.

Section EngineArguments.
Context {Net : Type} `{!Inference Net}.
Variable platform : Platform Net.

(** The expressions of [Init] that name what is handed to the engine. *)
Definition model_root (options : LaneDetectorInitOptions)
    (param : DenselineParam) : string :=
  GetAbsolutePath platform (root_dir options) (model_name (model_param param)).

Definition input_names (this : DenselineLaneDetector Net)
    (param : DenselineParam) : list string :=
  net_inputs_ this ++ [in_blob (net_param param)].

Definition output_names (this : DenselineLaneDetector Net)
    (param : DenselineParam) : list string :=
  (net_outputs_ this ++ [out_blob (net_param param)])
    ++ internal_blob_int8 (net_param param).

Definition created_engine (this : DenselineLaneDetector Net)
    (options : LaneDetectorInitOptions) (param : DenselineParam)
  : option Net :=
  CreateInferenceByName platform (model_type (model_param param))
    (GetAbsolutePath platform (model_root options param)
       (proto_file (model_param param)))
    (GetAbsolutePath platform (model_root options param)
       (weight_file (model_param param)))
    (output_names this param) (input_names this param)
    (model_root options param).

Definition input_shape (param : DenselineParam) : list Z :=
  [1; 3; resized_height param; resized_width param].

(** The state and the frame a successful [Detect] leaves. *)
Definition detected (this : DenselineLaneDetector Net) (image : Image8U) (net : Net)
  : DenselineLaneDetector Net :=
  set_rt_net_ (net_Infer net) (set_image_src_ image this).

Definition published (fr : CameraFrame) (output_name : string) (net : Net)
  : CameraFrame :=
  set_lane_detected_blob (net_get_blob output_name (net_Infer net)) fr.

End EngineArguments.

(** ** The detector after [Init]

    [later d d'] : [d'] is the detector [d] some [Detect] calls later.
    Between two calls the engine object, which the detector only points
    to, may have been changed from outside. *)
Inductive later {Net} `{!Inference Net} (d : DenselineLaneDetector Net)
  : DenselineLaneDetector Net -> Prop :=
  | later_now : later d d
  | later_Detect d1 options frame r d2 frame' :
      later d d1 ->
      outcome (Detect d1 options frame) = Done (r, d2, frame') ->
      later d d2
  | later_engine d1 net :
      later d d1 ->
      later d (set_rt_net_ net d1).

(** What [Detect] never assigns. *)
Definition same_configuration {Net} (d d' : DenselineLaneDetector Net) : Prop :=
  input_width_ d' = input_width_ d
  /\ input_height_ d' = input_height_ d
  /\ resize_width_ d' = resize_width_ d
  /\ resize_height_ d' = resize_height_ d
  /\ crop_width_ d' = crop_width_ d
  /\ crop_height_ d' = crop_height_ d
  /\ data_provider_image_option_ d' = data_provider_image_option_ d
  /\ net_inputs_ d' = net_inputs_ d
  /\ net_outputs_ d' = net_outputs_ d.

(** ** A test double for the collaborators

    An engine with a fixed set of tensors.  [Init] binds the shapes it is
    given; a tensor without a bound shape is 1 x 1 x 1.  A tensor is
    identified by its position in the list of names. *)
Module TestEngine.

Record t : Type := mk {
  names : list string;
  shapes : gmap string (list Z);
  accepts : bool;
  device : Z
}.

Fixpoint index_of (name : string) (l : list string) (i : Z) : option Z :=
  match l with
  | [] => None
  | n :: l' => if String.eqb n name then Some i else index_of name l' (i + 1)
  end.

Definition get_blob (name : string) (net : t) : option Blob :=
  match index_of name (names net) 0 with
  | None => None
  | Some i =>
      Some match shapes net !! name with
           | Some [_; c; h; w] =>
               {| blob_id := i; channels := c; height := h; width := w |}
           | _ => {| blob_id := i; channels := 1; height := 1; width := 1 |}
           end
  end.

#[global] Instance inference : Inference t := {|
  net_Init := fun reshape net =>
    (accepts net,
     mk (names net) (reshape ∪ shapes net) (accepts net) (device net));
  net_Infer := fun net => net;
  net_get_blob := get_blob;
  net_set_gpu_id := fun id net =>
    mk (names net) (shapes net) (accepts net) id
|}.

(** A platform that reads [param] from every path and creates an engine
    that knows exactly the tensors it is asked for. *)
Definition platform (param : DenselineParam) : Platform t := {|
  GetAbsolutePath := fun root name => root +:+ "/" +:+ name;
  GetProtoFromFile := fun _ => Parsed param;
  CreateInferenceByName := fun _ _ _ outputs inputs _ =>
    Some (mk (inputs ++ outputs) ∅ true 0)
|}.

(** The same platform with a factory that refuses a list of tensor names
    in which a name occurs twice. *)
Fixpoint has_duplicate (l : list string) : bool :=
  match l with
  | [] => false
  | n :: l' => existsb (String.eqb n) l' || has_duplicate l'
  end.

Definition strict_platform (param : DenselineParam) : Platform t := {|
  GetAbsolutePath := fun root name => root +:+ "/" +:+ name;
  GetProtoFromFile := fun _ => Parsed param;
  CreateInferenceByName := fun _ _ _ outputs inputs _ =>
    if has_duplicate inputs || has_duplicate outputs then None
    else Some (mk (inputs ++ outputs) ∅ true 0)
|}.

(** A freshly constructed detector; the scalar members hold zeros. *)
Definition fresh : DenselineLaneDetector t := {|
  rt_net_ := None;
  base_camera_model_ := None;
  denseline_param_ := None;
  input_height_ := 0;
  input_width_ := 0;
  input_offset_y_ := 0;
  input_offset_x_ := 0;
  crop_height_ := 0;
  crop_width_ := 0;
  resize_height_ := 0;
  resize_width_ := 0;
  image_mean_ := (0, 0, 0);
  image_scale_ := 0%Q;
  data_provider_image_option_ :=
    {| target_color := RGB; do_crop := false; crop_roi := RectI.mk 0 0 0 0 |};
  net_inputs_ := [];
  net_outputs_ := [];
  image_src_ := None
|}.

(** A configuration with the given crop region and scale. *)
Definition param (off_x off_y crop_w crop_h : Z) (scale : Q)
    (internal : list string) : DenselineParam := {|
  model_param := {|
    model_name := "denseline";
    proto_file := "deploy.prototxt";
    weight_file := "deploy.caffemodel";
    model_type := "RTNet";
    resize_scale := scale;
    input_offset_y := off_y;
    input_offset_x := off_x;
    crop_height := crop_h;
    crop_width := crop_w;
    is_bgr := true;
    mean_b := 95;
    mean_g := 99;
    mean_r := 96
  |};
  net_param := {|
    in_blob := "data";
    out_blob := "conv_out";
    internal_blob_int8 := internal
  |}
|}.

Definition options (camera : option BaseCameraModel)
  : LaneDetectorInitOptions := {|
  root_dir := "/apollo/modules/perception/production/data";
  conf_file := "config.pt";
  base_camera_model := camera;
  gpu_id := 0
|}.

Definition camera (w h : Z) : BaseCameraModel :=
  {| get_height := h; get_width := w |}.

(** A frame of the given native size whose provider returns image 7. *)
Definition frame (w h : Z) : CameraFrame := {|
  data_provider := Some {| src_width := w; src_height := h;
                           GetImage := fun _ => Some {| image_id := 7 |} |};
  lane_detected_blob := None
|}.

(** The detector [Init] returns on a fresh object, if it returns. *)
Definition initialised (p : DenselineParam) (o : LaneDetectorInitOptions)
  : DenselineLaneDetector t :=
  match outcome (Init (platform p) fresh o) with
  | Done (_, d) => d
  | _ => fresh
  end.

(** The engine of a detector with its input tensor re-bound, from outside,
    to another height and width. *)
Definition rebound (w h : Z) (d : DenselineLaneDetector t)
  : DenselineLaneDetector t :=
  match rt_net_ d, net_inputs_ d with
  | Some net, name :: _ =>
      set_rt_net_
        (mk (names net) (<[ name := [1; 3; h; w] ]> (shapes net))
            (accepts net) (device net)) d
  | _, _ => d
  end.

(** The example of the specification: a 1920 x 1080 camera, the crop
    region (0, 300) 1920 x 480 and the scale 1/2, with one additional
    output tensor. *)
Definition hd_camera : option BaseCameraModel := Some (camera 1920 1080).
Definition lane_param : DenselineParam :=
  param 0 300 1920 480 (1 # 2) ["conv_int8"].
Definition lane_detector : DenselineLaneDetector t :=
  initialised lane_param (options hd_camera).

End TestEngine.

(** ** Further notions for the statements *)

(** The message of the first of the four tests of [Init] on the native
    size and on the crop size that fails, in the order of the source (lines
    61-62 and 73-76), if one of them fails. *)
Definition native_and_crop_failure (options : LaneDetectorInitOptions)
    (param : DenselineParam) : option string :=
  if negb (0 <? native_width options) then
    Some "input width should be more than 0"
  else if negb (0 <? native_height options) then
    Some "input height should be more than 0"
  else if negb (stored_crop_height param <=? native_height options) then
    Some "crop height larger than input height"
  else if negb (stored_crop_width param <=? native_width options) then
    Some "crop width larger than input width"
  else None.

(** The message of the first of the two tests on the resized size that
    fails (lines 127-128), if one of them fails. *)
Definition resize_failure (param : DenselineParam) : option string :=
  if negb (0 <? resized_width param)
  then Some "resize width should be more than 0"
  else if negb (0 <? resized_height param)
  then Some "resize height should be more than 0"
  else None.

(** The members of the detector other than the engine and the image. *)
Definition kept_members {Net} (d : DenselineLaneDetector Net) :=
  (base_camera_model_ d, denseline_param_ d,
   (input_height_ d, input_width_ d, input_offset_y_ d, input_offset_x_ d),
   (crop_height_ d, crop_width_ d, resize_height_ d, resize_width_ d),
   (image_mean_ d, image_scale_ d, data_provider_image_option_ d),
   (net_inputs_ d, net_outputs_ d)).

(** The first five collaborator calls of [Init], in order: reading the
    configuration, the device query, the engine factory, the binding of the
    engine to the device, the initialisation of the engine. *)
Section InitCalls.
Context {Net : Type} `{!Inference Net}.
Variable platform : Platform Net.

Definition Init_calls_upto (n : nat) (this : DenselineLaneDetector Net)
    (options : LaneDetectorInitOptions) (param : DenselineParam)
    (input_name : string) : list Event :=
  take n
    [ Call_GetProtoFromFile
        (GetAbsolutePath platform (root_dir options) (conf_file options));
      Call_cudaGetDeviceProperties (gpu_id options);
      Call_CreateInferenceByName (model_type (model_param param))
        (GetAbsolutePath platform (model_root platform options param)
           (proto_file (model_param param)))
        (GetAbsolutePath platform (model_root platform options param)
           (weight_file (model_param param)))
        (output_names this param) (input_names this param)
        (model_root platform options param);
      Call_set_gpu_id (gpu_id options);
      Call_net_Init {[ input_name := input_shape param ]} ].

End InitCalls.

(** More collaborators for the test double. *)
Module Scenarios.

(** No configuration can be read; the parser leaves the message empty. *)
Definition unreadable : Platform TestEngine.t := {|
  GetAbsolutePath := fun root name => root +:+ "/" +:+ name;
  GetProtoFromFile := fun _ => ParseFailed (fun _ => None);
  CreateInferenceByName := fun _ _ _ outputs inputs _ =>
    Some (TestEngine.mk (inputs ++ outputs) ∅ true 0)
|}.

(** The factory yields no engine. *)
Definition no_engine (param : DenselineParam) : Platform TestEngine.t := {|
  GetAbsolutePath := fun root name => root +:+ "/" +:+ name;
  GetProtoFromFile := fun _ => Parsed param;
  CreateInferenceByName := fun _ _ _ _ _ _ => None
|}.

(** The engine refuses its initialisation. *)
Definition refusing (param : DenselineParam) : Platform TestEngine.t := {|
  GetAbsolutePath := fun root name => root +:+ "/" +:+ name;
  GetProtoFromFile := fun _ => Parsed param;
  CreateInferenceByName := fun _ _ _ outputs inputs _ =>
    Some (TestEngine.mk (inputs ++ outputs) ∅ false 0)
|}.

(** The engine knows the input tensors only. *)
Definition inputs_only (param : DenselineParam) : Platform TestEngine.t := {|
  GetAbsolutePath := fun root name => root +:+ "/" +:+ name;
  GetProtoFromFile := fun _ => Parsed param;
  CreateInferenceByName := fun _ _ _ outputs inputs _ =>
    Some (TestEngine.mk inputs ∅ true 0)
|}.

(** A configuration with other tensor names. *)
Definition renamed (input output : string) (param : DenselineParam)
  : DenselineParam := {|
  model_param := model_param param;
  net_param := {| in_blob := input; out_blob := output;
                  internal_blob_int8 := internal_blob_int8 (net_param param) |}
|}.

(** A frame whose data provider fails to deliver the image. *)
Definition dark_frame (w h : Z) : CameraFrame := {|
  data_provider := Some {| src_width := w; src_height := h;
                           GetImage := fun _ => None |};
  lane_detected_blob := None
|}.

(** A detector with the geometry and names of the example but no engine. *)
Definition without_engine : DenselineLaneDetector TestEngine.t := {|
  rt_net_ := None;
  base_camera_model_ := base_camera_model_ TestEngine.lane_detector;
  denseline_param_ := denseline_param_ TestEngine.lane_detector;
  input_height_ := input_height_ TestEngine.lane_detector;
  input_width_ := input_width_ TestEngine.lane_detector;
  input_offset_y_ := input_offset_y_ TestEngine.lane_detector;
  input_offset_x_ := input_offset_x_ TestEngine.lane_detector;
  crop_height_ := crop_height_ TestEngine.lane_detector;
  crop_width_ := crop_width_ TestEngine.lane_detector;
  resize_height_ := resize_height_ TestEngine.lane_detector;
  resize_width_ := resize_width_ TestEngine.lane_detector;
  image_mean_ := image_mean_ TestEngine.lane_detector;
  image_scale_ := image_scale_ TestEngine.lane_detector;
  data_provider_image_option_ :=
    data_provider_image_option_ TestEngine.lane_detector;
  net_inputs_ := net_inputs_ TestEngine.lane_detector;
  net_outputs_ := net_outputs_ TestEngine.lane_detector;
  image_src_ := None
|}.

(** A freshly constructed detector whose scalar members hold leftovers. *)
Definition stale : DenselineLaneDetector TestEngine.t := {|
  rt_net_ := None;
  base_camera_model_ := Some (TestEngine.camera 640 480);
  denseline_param_ := None;
  input_height_ := 480;
  input_width_ := 640;
  input_offset_y_ := 7;
  input_offset_x_ := 9;
  crop_height_ := 11;
  crop_width_ := 13;
  resize_height_ := 17;
  resize_width_ := 19;
  image_mean_ := (1, 2, 3);
  image_scale_ := 3%Q;
  data_provider_image_option_ :=
    {| target_color := BGR; do_crop := true; crop_roi := RectI.mk 1 2 3 4 |};
  net_inputs_ := [];
  net_outputs_ := [];
  image_src_ := None
|}.

End Scenarios.

(** ** Laws of the monad *)

Section Laws.
Context {A B : Type}.

Lemma outcome_bind (f : A -> Run B) (m : Run A) :
  outcome (m ≫= f)
  = match outcome m with
    | Done a => outcome (f a)
    | Fatal msg => Fatal msg
    | Crash => Crash
    end.
Proof.
  destruct m as [tr [a | msg |]]; cbn; try reflexivity.
  destruct (f a); reflexivity.
Qed.

Lemma events_bind (f : A -> Run B) (m : Run A) :
  events (m ≫= f)
  = events m ++ match outcome m with
                | Done a => events (f a)
                | _ => []
                end.
Proof.
  destruct m as [tr [a | msg |]]; cbn; rewrite ?app_nil_r; try reflexivity.
  destruct (f a); reflexivity.
Qed.

Lemma outcome_mret (a : A) : outcome (mret a : Run A) = Done a.
Proof. reflexivity. Qed.

Lemma events_mret (a : A) : events (mret a : Run A) = [].
Proof. reflexivity. Qed.

Lemma outcome_fatal msg : outcome (fatal msg : Run A) = Fatal msg.
Proof. reflexivity. Qed.

Lemma events_fatal msg : events (fatal msg : Run A) = [].
Proof. reflexivity. Qed.

Lemma outcome_deref (p : option A) :
  outcome (deref p) = match p with Some a => Done a | None => Crash end.
Proof. destruct p; reflexivity. Qed.

Lemma events_deref (p : option A) : events (deref p) = [].
Proof. destruct p; reflexivity. Qed.

End Laws.

Lemma outcome_for_each_log {A} (l : list A) (text : A -> string) :
  outcome (for_each l (fun a => AINFO (text a))) = Done tt.
Proof.
  induction l as [| a l IH]; [reflexivity |].
  cbn [for_each]. rewrite outcome_bind, IH. reflexivity.
Qed.

Lemma events_for_each_log {A} (l : list A) (text : A -> string) :
  events (for_each l (fun a => AINFO (text a)))
  = map (fun a => Log SevINFO (text a)) l.
Proof.
  induction l as [| a l IH]; [reflexivity |].
  cbn [for_each map]. rewrite events_bind, IH. reflexivity.
Qed.

Lemma outcome_pair {A} (tr : list Event) (o : Outcome A) :
  outcome (tr, o) = o.
Proof. reflexivity. Qed.

Lemma events_pair {A} (tr : list Event) (o : Outcome A) :
  events (tr, o) = tr.
Proof. reflexivity. Qed.

Lemma outcome_emit e : outcome (emit e) = Done tt.
Proof. reflexivity. Qed.

Lemma events_emit e : events (emit e) = [e].
Proof. reflexivity. Qed.

Lemma outcome_AINFO text : outcome (AINFO text) = Done tt.
Proof. reflexivity. Qed.

Lemma events_AINFO text : events (AINFO text) = [Log SevINFO text].
Proof. reflexivity. Qed.

Lemma outcome_AERROR text : outcome (AERROR text) = Done tt.
Proof. reflexivity. Qed.

Lemma events_AERROR text : events (AERROR text) = [Log SevERROR text].
Proof. reflexivity. Qed.

Lemma outcome_CHECK cond msg :
  outcome (CHECK cond msg) = if cond then Done tt else Fatal msg.
Proof. destruct cond; reflexivity. Qed.

Lemma events_CHECK cond msg : events (CHECK cond msg) = [].
Proof. destruct cond; reflexivity. Qed.

Lemma outcome_CHECK_LE a b msg :
  outcome (CHECK_LE a b msg) = if a <=? b then Done tt else Fatal msg.
Proof. apply outcome_CHECK. Qed.

Lemma events_CHECK_LE a b msg : events (CHECK_LE a b msg) = [].
Proof. apply events_CHECK. Qed.

Lemma outcome_CHECK_EQ a b msg :
  outcome (CHECK_EQ a b msg) = if a =? b then Done tt else Fatal msg.
Proof. apply outcome_CHECK. Qed.

Lemma events_CHECK_EQ a b msg : events (CHECK_EQ a b msg) = [].
Proof. apply events_CHECK. Qed.

(** Events of a loop whose body looks a tensor up and logs it. *)
Lemma for_each_lookup_events {A B} (l : list A) (get : A -> option B)
    (text : A -> string) e :
  e ∈ events (for_each l (fun a => b ← deref (get a); AINFO (text a))) ->
  exists s, e = Log SevINFO s.
Proof.
  induction l as [| a l IH]; cbn [for_each].
  - intros He. inversion He.
  - rewrite events_bind, events_bind, events_deref, outcome_bind, outcome_deref.
    destruct (get a) as [b |]; cbn.
    + intros He. apply elem_of_cons in He as [-> | He]; eauto.
    + intros He. inversion He.
Qed.

Lemma outcome_for_each_lookup {A B} (l : list A) (get : A -> option B)
    (text : A -> string) :
  outcome (for_each l (fun a => b ← deref (get a); AINFO (text a)))
  = if resolves get l then Done tt else Crash.
Proof.
  induction l as [| a l IH]; [reflexivity |].
  cbn [for_each resolves forallb].
  rewrite !outcome_bind, outcome_deref, IH.
  destruct (get a); reflexivity.
Qed.

Create Rewrite HintDb run.
#[global] Hint Rewrite
  @outcome_bind @outcome_mret @outcome_fatal @outcome_deref @outcome_pair
  @outcome_for_each_log @outcome_for_each_lookup
  outcome_emit outcome_AINFO outcome_AERROR
  outcome_CHECK outcome_CHECK_LE outcome_CHECK_EQ : run.
#[global] Hint Rewrite
  @events_bind @events_mret @events_fatal @events_deref @events_pair
  @events_for_each_log events_emit events_AINFO events_AERROR
  events_CHECK events_CHECK_LE events_CHECK_EQ : run.

(** Symbolic execution of a member function: push [outcome] and [events]
    through the binds, and split on the test the run is stuck on. *)
Ltac run := repeat (autorewrite with run; cbn [negb]).

Ltac stuck_term t :=
  lazymatch t with
  | match ?x with _ => _ end => stuck_term x
  | outcome ?x => stuck_term x
  | events ?x => stuck_term x
  | ?l ++ ?r => stuck_term r
  | _ => t
  end.

Ltac split_on lhs :=
  lazymatch lhs with
  | match _ with _ => _ end => let t := stuck_term lhs in destruct t eqn:?
  | outcome _ => let t := stuck_term lhs in destruct t eqn:?
  | events _ => let t := stuck_term lhs in destruct t eqn:?
  end.

Ltac run_split :=
  lazymatch goal with
  | |- ?lhs = _ -> _ => split_on lhs
  | |- ?lhs = _ => split_on lhs
  end; run; try (intros; discriminate).

(** ** What [Init] establishes *)

Lemma calls_app (l1 l2 : list Event) : calls (l1 ++ l2) = calls l1 ++ calls l2.
Proof.
  induction l1 as [| e l1 IH]; [reflexivity |].
  cbn. rewrite IH. destruct (is_call e); reflexivity.
Qed.

Lemma calls_only_logs (tr : list Event) :
  (forall e, e ∈ tr -> exists s, e = Log SevINFO s) -> calls tr = [].
Proof.
  induction tr as [| e tr IH]; [reflexivity |]. intros Hlog.
  destruct (Hlog e) as [s ->]; [left |]. cbn.
  apply IH. intros e' He'. apply Hlog. now right.
Qed.

Lemma calls_map_log {A} (l : list A) (text : A -> string) :
  calls (map (fun a => Log SevINFO (text a)) l) = [].
Proof. induction l; [reflexivity | assumption]. Qed.

Lemma calls_for_each_lookup {A B} (l : list A) (get : A -> option B)
    (text : A -> string) :
  calls (events (for_each l (fun a => b ← deref (get a); AINFO (text a)))) = [].
Proof. apply calls_only_logs. intros e. apply for_each_lookup_events. Qed.

(** The branch of [Init] on the camera model, seen from outside. *)
Lemma camera_outcome options :
  outcome (match base_camera_model options with
           | None =>
               AERROR "options.intrinsic is nullptr!" ;;
               mret (1080, 1920)
           | Some camera =>
               mret (uint16_t (get_height camera), uint16_t (get_width camera))
           end : Run (Z * Z))
  = Done (native_height options, native_width options).
Proof.
  unfold native_height, native_width.
  destruct (base_camera_model options); reflexivity.
Qed.

Lemma camera_events options :
  events (match base_camera_model options with
          | None =>
              AERROR "options.intrinsic is nullptr!" ;;
              mret (1080, 1920)
          | Some camera =>
              mret (uint16_t (get_height camera), uint16_t (get_width camera))
          end : Run (Z * Z))
  = camera_log options.
Proof. unfold camera_log. destruct (base_camera_model options); reflexivity. Qed.

Lemma calls_camera_log options : calls (camera_log options) = [].
Proof. unfold camera_log. destruct (base_camera_model options); reflexivity. Qed.

(** The members [Init] records, spelled out as in its body. *)
Ltac stored :=
  unfold resized_height, resized_width, stored_scale, stored_offset_y,
    stored_offset_x, stored_crop_height, stored_crop_width in *.

Ltac calls_simpl :=
  repeat (progress (cbn [calls is_call app];
                    rewrite ?calls_app, ?calls_map_log,
                      ?calls_for_each_lookup, ?calls_camera_log)).

Section InitFacts.
Context {Net : Type} `{!Inference Net}.
Variable platform : Platform Net.

(** Every way [Init] can end.  Without a configuration it returns
    [false] and leaves the object with what the parser left in
    [denseline_param_].  With one, a failed geometry
    test terminates it; past the tests it is terminated only by the
    factory returning no engine, it crashes only on a tensor name the
    engine does not know, and whatever it returns has every member
    assigned. *)
Lemma Init_outcome this options o :
  outcome (Init platform this options) = o ->
  match loaded_param platform options with
  | None =>
      exists leaves,
        GetProtoFromFile platform
          (GetAbsolutePath platform (root_dir options) (conf_file options))
        = ParseFailed leaves
        /\ o = Done (false,
                     set_denseline_param_ (leaves (denseline_param_ this)) this)
  | Some param =>
      if geometry_checks options param then
        match o with
        | Done (b, d) => configured this options param d
        | Fatal msg =>
            msg = "Check failed: rt_net_ != nullptr"
            /\ created_engine platform this options param = None
        | Crash => True
        end
      else exists msg, o = Fatal msg
  end.
Proof.
  unfold Init, loaded_param, geometry_checks,
    created_engine, output_names, input_names, model_root.
  stored. run. run_split.
  2: { intros <-. eauto. }
  rewrite camera_outcome. run.
  all: repeat run_split.
  all: intros <-; cbn; eauto.
  all: unfold configured; stored; cbn.
  all: repeat match goal with H : is_bgr _ = _ |- _ => rewrite H; clear H end.
  all: try (match goal with |- if ?c then _ else _ => destruct c end; eauto).
  all: repeat split; reflexivity.
Qed.

(** The collaborator calls of an [Init] that returns, in order: the
    configuration is read, the device queried, the engine created with
    the accumulated tensor names, bound to the device and initialised
    with one shape, for the first input name. *)
Lemma Init_calls this options param b d :
  loaded_param platform options = Some param ->
  outcome (Init platform this options) = Done (b, d) ->
  exists input_name,
    input_names this param !! 0%nat = Some input_name
    /\ calls (events (Init platform this options))
       = [ Call_GetProtoFromFile
             (GetAbsolutePath platform (root_dir options) (conf_file options));
           Call_cudaGetDeviceProperties (gpu_id options);
           Call_CreateInferenceByName (model_type (model_param param))
             (GetAbsolutePath platform (model_root platform options param)
                (proto_file (model_param param)))
             (GetAbsolutePath platform (model_root platform options param)
                (weight_file (model_param param)))
             (output_names this param) (input_names this param)
             (model_root platform options param);
           Call_set_gpu_id (gpu_id options);
           Call_net_Init {[ input_name := input_shape param ]} ].
Proof.
  unfold loaded_param. intros Hparam.
  unfold Init, output_names, input_names, model_root, input_shape.
  stored. run.
  destruct (GetProtoFromFile _ _) as [param0 | leaves]; [| discriminate Hparam].
  injection Hparam as ->. run.
  rewrite camera_outcome, camera_events. run.
  all: repeat run_split.
  all: intros _; eexists; split; [reflexivity |].
  all: calls_simpl; reflexivity.
Qed.

(** [Init] returns [true] as soon as the configuration is read, the six
    geometry tests pass, the factory yields an engine, the engine accepts
    the shape and knows every configured tensor name. *)
Lemma Init_succeeds this options param input_name net net' :
  loaded_param platform options = Some param ->
  geometry_checks options param = true ->
  created_engine platform this options param = Some net ->
  input_names this param !! 0%nat = Some input_name ->
  net_Init {[ input_name := input_shape param ]}
    (net_set_gpu_id (gpu_id options) net) = (true, net') ->
  resolves (fun name => net_get_blob name net') (input_names this param)
    = true ->
  resolves (fun name => net_get_blob name net') (output_names this param)
    = true ->
  exists d,
    outcome (Init platform this options) = Done (true, d)
    /\ rt_net_ d = Some net'.
Proof.
  unfold loaded_param, geometry_checks, created_engine,
    output_names, input_names, model_root, input_shape.
  stored. intros Hparam Hchecks Hnet Hname Hinit Hin Hout.
  repeat (apply andb_prop in Hchecks as [Hchecks ?]).
  unfold Init. run.
  destruct (GetProtoFromFile _ _) as [param0 | leaves]; [| discriminate Hparam].
  injection Hparam as ->. run.
  rewrite camera_outcome. run.
  repeat match goal with H : (_ <? _) = true |- _ => rewrite H; clear H end.
  repeat match goal with H : (_ <=? _) = true |- _ => rewrite H; clear H end.
  run; destruct (is_bgr (model_param param)); run.
  all: rewrite Hnet; run; rewrite Hname; run; rewrite Hinit; run.
  all: rewrite Hin; run; rewrite Hout; run.
  all: eexists; split; reflexivity.
Qed.
End InitFacts.

(** ** What [Detect] does *)

Lemma run_eta {A} (r : Run A) : r = (events r, outcome r).
Proof. destruct r; reflexivity. Qed.

Section DetectFacts.
Context {Net : Type} `{!Inference Net}.

Abbreviation Detector := (DenselineLaneDetector Net).

(** With no frame, [Detect] logs one line and returns [false]. *)
Lemma Detect_null (this : Detector) options :
  Detect this options None
  = ([Log SevINFO "camera frame is empty."], Done (false, this, None)).
Proof. reflexivity. Qed.

(** A frame whose native size is not the recorded one terminates the
    process at the first [CHECK_EQ], before anything else happened. *)
Lemma Detect_size_mismatch (this : Detector) options fr provider :
  data_provider fr = Some provider ->
  input_width_ this <> src_width provider
  \/ input_height_ this <> src_height provider ->
  Detect this options (Some fr) = ([], Fatal "Input size is not correct: ").
Proof.
  intros Hprov Hsize. rewrite (run_eta (Detect _ _ _)).
  unfold Detect. run. rewrite Hprov. run.
  destruct (Z.eqb_spec (input_width_ this) (src_width provider)) as [Hw | Hw];
    [| reflexivity].
  destruct (Z.eqb_spec (input_height_ this) (src_height provider)) as [Hh | Hh];
    [| reflexivity].
  tauto.
Qed.

(** A frame of the recorded size gets as far as the data provider. *)
Lemma Detect_size_match (this : Detector) options fr provider :
  data_provider fr = Some provider ->
  input_width_ this = src_width provider ->
  input_height_ this = src_height provider ->
  exists tr,
    events (Detect this options (Some fr))
    = Call_GetImage (data_provider_image_option_ this) :: tr.
Proof.
  intros Hprov Hw Hh. unfold Detect. run. rewrite Hprov. run.
  rewrite Hw, Hh, !Z.eqb_refl. run. eauto.
Qed.

(** The input tensor of a different shape than the one resolved by [Init]
    terminates the process before the resize kernel and the network are
    run. *)
Lemma Detect_shape_mismatch (this : Detector) options fr provider image net
    input_name input_blob :
  data_provider fr = Some provider ->
  input_width_ this = src_width provider ->
  input_height_ this = src_height provider ->
  GetImage provider (data_provider_image_option_ this) = Some image ->
  rt_net_ this = Some net ->
  net_inputs_ this !! 0%nat = Some input_name ->
  net_get_blob input_name net = Some input_blob ->
  height input_blob <> resize_height_ this
  \/ width input_blob <> resize_width_ this ->
  exists msg,
    Detect this options (Some fr)
    = ([Call_GetImage (data_provider_image_option_ this);
        Log SevINFO "input_blob: "], Fatal msg)
    /\ (msg = "height is not equal" \/ msg = "width is not equal").
Proof.
  intros Hprov Hw Hh Himg Hnet Hname Hblob Hshape.
  rewrite (run_eta (Detect _ _ _)).
  unfold Detect. run. rewrite Hprov. run.
  rewrite Hw, Hh, !Z.eqb_refl. run. rewrite Himg. run.
  cbn [set_image_src_ rt_net_ net_inputs_ resize_height_ resize_width_].
  rewrite Hnet. run. rewrite Hname. run. rewrite Hblob. run.
  destruct (Z.eqb_spec (height input_blob) (resize_height_ this)) as [Eh | Eh].
  2: { eexists; split; [reflexivity | auto]. }
  destruct (Z.eqb_spec (width input_blob) (resize_width_ this)) as [Ew | Ew].
  2: { eexists; split; [reflexivity | auto]. }
  tauto.
Qed.

(** The run of a [Detect] whose tests all pass. *)
Lemma Detect_succeeds (this : Detector) options fr provider image net
    input_name input_blob output_name :
  data_provider fr = Some provider ->
  input_width_ this = src_width provider ->
  input_height_ this = src_height provider ->
  GetImage provider (data_provider_image_option_ this) = Some image ->
  rt_net_ this = Some net ->
  net_inputs_ this !! 0%nat = Some input_name ->
  net_get_blob input_name net = Some input_blob ->
  height input_blob = resize_height_ this ->
  width input_blob = resize_width_ this ->
  net_outputs_ this !! 0%nat = Some output_name ->
  Detect this options (Some fr)
  = ([Call_GetImage (data_provider_image_option_ this);
      Log SevINFO "input_blob: ";
      Call_ResizeGPU image input_blob (crop_width_ this) 0
        (image_mean_ this).1.1 (image_mean_ this).1.2 (image_mean_ this).2
        false 1%Q;
      Log SevINFO "resize gpu finish.";
      Call_cudaDeviceSynchronize;
      Call_Infer;
      Log SevINFO "infer finish."],
     Done (true, detected this image net,
           Some (published fr output_name net))).
Proof.
  intros Hprov Hw Hh Himg Hnet Hname Hblob Eh Ew Hout.
  rewrite (run_eta (Detect _ _ _)).
  unfold Detect. run. rewrite Hprov. run.
  rewrite Hw, Hh, !Z.eqb_refl. run. rewrite Himg. run.
  cbn [set_image_src_ set_rt_net_ rt_net_ net_inputs_ net_outputs_
       resize_height_ resize_width_ image_mean_ crop_width_].
  rewrite Hnet. run. rewrite Hname. run. rewrite Hblob. run.
  rewrite Eh, Ew, !Z.eqb_refl. run.
  destruct (image_mean_ this) as [[mean0 mean1] mean2]. run.
  rewrite Hout. run. reflexivity.
Qed.

(** A [Detect] that returns either had no frame and returned [false], or
    passed every test and returned [true]. *)
Lemma Detect_Done (this : Detector) options frame r d frame' :
  outcome (Detect this options frame) = Done (r, d, frame') ->
  (frame = None /\ r = false /\ d = this /\ frame' = None)
  \/ exists fr provider image net input_name input_blob output_name,
       frame = Some fr
       /\ data_provider fr = Some provider
       /\ input_width_ this = src_width provider
       /\ input_height_ this = src_height provider
       /\ GetImage provider (data_provider_image_option_ this) = Some image
       /\ rt_net_ this = Some net
       /\ net_inputs_ this !! 0%nat = Some input_name
       /\ net_get_blob input_name net = Some input_blob
       /\ height input_blob = resize_height_ this
       /\ width input_blob = resize_width_ this
       /\ net_outputs_ this !! 0%nat = Some output_name
       /\ r = true
       /\ d = detected this image net
       /\ frame' = Some (published fr output_name net).
Proof.
  destruct frame as [fr |].
  2: { intros [= <- <- <-]. left. auto. }
  intros E. right. revert E.
  unfold Detect. run.
  destruct (data_provider fr) as [provider |] eqn:Hprov; run;
    [| discriminate].
  destruct (Z.eqb_spec (input_width_ this) (src_width provider)) as [Hw | Hw];
    run; [| discriminate].
  destruct (Z.eqb_spec (input_height_ this) (src_height provider)) as [Hh | Hh];
    run; [| discriminate].
  destruct (GetImage provider _) as [image |] eqn:Himg; run; [| discriminate].
  cbn [set_image_src_ set_rt_net_ rt_net_ net_inputs_ net_outputs_
       resize_height_ resize_width_ image_mean_ crop_width_].
  destruct (rt_net_ this) as [net |] eqn:Hnet; run; [| discriminate].
  destruct (net_inputs_ this !! 0%nat) as [input_name |] eqn:Hname; run;
    [| discriminate].
  destruct (net_get_blob input_name net) as [input_blob |] eqn:Hblob; run;
    [| discriminate].
  destruct (Z.eqb_spec (height input_blob) (resize_height_ this)) as [Eh | Eh];
    run; [| discriminate].
  destruct (Z.eqb_spec (width input_blob) (resize_width_ this)) as [Ew | Ew];
    run; [| discriminate].
  destruct (image_mean_ this) as [[mean0 mean1] mean2] eqn:Hmean. run.
  destruct (net_outputs_ this !! 0%nat) as [output_name |] eqn:Hout; run;
    [| discriminate].
  intros [= <- <- <-].
  exists fr, provider, image, net, input_name, input_blob, output_name.
  unfold detected, set_rt_net_, set_image_src_. cbn. rewrite Hmean.
  repeat split; assumption || reflexivity.
Qed.

End DetectFacts.

(** ** The detector after [Init] *)

Lemma Detect_same_configuration {Net} `{!Inference Net}
    (d : DenselineLaneDetector Net) options frame r d' frame' :
  outcome (Detect d options frame) = Done (r, d', frame') ->
  same_configuration d d'.
Proof.
  intros E. apply Detect_Done in E as [(_ & _ & -> & _) | E].
  - repeat split.
  - destruct E as (fr & provider & image & net & input_name & input_blob
                   & output_name & E).
    destruct E as (_ & _ & _ & _ & _ & _ & _ & _ & _ & _ & _ & _ & -> & _).
    repeat split.
Qed.

Lemma later_same_configuration {Net} `{!Inference Net}
    (d d' : DenselineLaneDetector Net) :
  later d d' -> same_configuration d d'.
Proof.
  induction 1 as [| d1 options frame r d2 frame' _ IH E | d1 net _ IH].
  - repeat split.
  - apply Detect_same_configuration in E.
    unfold same_configuration in *.
    repeat match goal with H : _ /\ _ |- _ => destruct H end.
    repeat split; congruence.
  - exact IH.
Qed.

(** ** Consequences *)

Lemma geometry_checks_true options param :
  geometry_checks options param = true <->
  0 < native_width options /\ 0 < native_height options
  /\ stored_crop_height param <= native_height options
  /\ stored_crop_width param <= native_width options
  /\ 0 < resized_width param
  /\ 0 < resized_height param.
Proof.
  unfold geometry_checks. cbn zeta.
  rewrite !andb_true_iff, !Z.ltb_lt, !Z.leb_le. tauto.
Qed.

(** An [Init] that finds the geometry tests failing is terminated. *)
Lemma Init_geometry_rejected {Net} `{!Inference Net}
    (platform : Platform Net) (this : DenselineLaneDetector Net)
    options param :
  loaded_param platform options = Some param ->
  geometry_checks options param = false ->
  exists msg, outcome (Init platform this options) = Fatal msg.
Proof.
  intros Hparam Hchecks.
  pose proof (Init_outcome platform this options _ eq_refl) as E.
  rewrite Hparam, Hchecks in E. exact E.
Qed.

(** An [Init] that returns has passed the geometry tests and assigned
    every member. *)
Lemma Init_returned {Net} `{!Inference Net}
    (platform : Platform Net) (this d : DenselineLaneDetector Net)
    options param b :
  loaded_param platform options = Some param ->
  outcome (Init platform this options) = Done (b, d) ->
  geometry_checks options param = true /\ configured this options param d.
Proof.
  intros Hparam E. apply Init_outcome in E. rewrite Hparam in E.
  destruct (geometry_checks options param); [auto |].
  destruct E; discriminate.
Qed.

(** The values of the fixed-width members. *)
Lemma uint16_t_range (z : Z) : 0 <= uint16_t z < 65536.
Proof. unfold uint16_t. apply Z.mod_pos_bound. lia. Qed.

Lemma uint16_t_fits (z : Z) : 0 <= z < 65536 -> uint16_t z = z.
Proof. unfold uint16_t. intros Hz. apply Z.mod_small. exact Hz. Qed.

Lemma float_to_uint16_t_fits (q : Q) :
  0 <= float_to_int q < 65536 -> float_to_uint16_t q = float_to_int q.
Proof.
  intros Hz. unfold float_to_uint16_t. cbn zeta.
  replace (- 2 ^ 31 <=? float_to_int q) with true
    by (symmetry; apply Z.leb_le; lia).
  replace (float_to_int q <? 2 ^ 31) with true
    by (symmetry; apply Z.ltb_lt; lia).
  apply uint16_t_fits, Hz.
Qed.

(** [float_to_int] discards the fractional part. *)
Lemma float_to_int_bounds (q : Q) :
  (0 <= q)%Q ->
  (inject_Z (float_to_int q) <= q)%Q /\ (q < inject_Z (float_to_int q + 1))%Q.
Proof.
  destruct q as [n d]. unfold float_to_int, Qle, Qlt. cbn.
  intros Hn. rewrite Z.mul_1_r in Hn. rewrite !Z.mul_1_r.
  rewrite Z.quot_div_nonneg by lia.
  pose proof (Z.mul_div_le n (Z.pos d) ltac:(lia)).
  pose proof (Z.mul_succ_div_gt n (Z.pos d) ltac:(lia)).
  lia.
Qed.

Lemma float_to_int_whole (q : Q) :
  is_whole q = true -> (inject_Z (float_to_int q) == q)%Q.
Proof.
  destruct q as [n d]. unfold is_whole, float_to_int, Qeq. cbn.
  rewrite Z.eqb_eq. intros Hmod. rewrite Z.mul_1_r.
  apply Z.rem_mod_eq_0 in Hmod; [| lia].
  pose proof (Z.quot_rem' n (Z.pos d)). lia.
Qed.

Lemma float_to_uint16_t_range (q : Q) : 0 <= float_to_uint16_t q < 65536.
Proof.
  unfold float_to_uint16_t. cbn zeta.
  destruct (_ && _); [apply uint16_t_range | lia].
Qed.

Lemma scaled_size_range (size : Z) (scale : Q) :
  0 <= scaled_size size scale < 65536.
Proof. apply float_to_uint16_t_range. Qed.

(** A product that is not negative and fits the member is stored with
    its fractional part discarded. *)
Lemma scaled_size_truncates (size : Z) (scale : Q) :
  (0 <= float_mul (inject_Z size) scale)%Q ->
  float_to_int (float_mul (inject_Z size) scale) < 65536 ->
  (inject_Z (scaled_size size scale) <= float_mul (inject_Z size) scale)%Q
  /\ (float_mul (inject_Z size) scale
      < inject_Z (scaled_size size scale + 1))%Q.
Proof.
  intros Hpos Hfit. unfold scaled_size.
  destruct (float_to_int_bounds _ Hpos) as [Hlow Hhigh].
  assert (0 <= float_to_int (float_mul (inject_Z size) scale)).
  { revert Hpos. generalize (float_mul (inject_Z size) scale).
    intros [n d]. unfold float_to_int, Qle. cbn. rewrite Z.mul_1_r.
    intros Hn. apply Z.quot_pos; lia. }
  rewrite float_to_uint16_t_fits by lia. split; assumption.
Qed.

(** A collaborator call is in a run exactly when it is among its calls. *)
Lemma elem_of_calls (e : Event) (tr : list Event) :
  is_call e = true -> e ∈ calls tr <-> e ∈ tr.
Proof.
  intros He. induction tr as [| e' tr IH]; [reflexivity |].
  cbn. destruct (is_call e') eqn:He'.
  - rewrite !elem_of_cons, IH. reflexivity.
  - rewrite elem_of_cons, IH. split; [auto |].
    intros [-> | Hin]; [congruence | assumption].
Qed.

(** Nothing runs after a terminated call. *)
Lemma outcome_bind_Fatal {A B} (m : Run A) (f : A -> Run B) msg :
  outcome m = Fatal msg -> outcome (m ≫= f) = Fatal msg.
Proof. intros E. rewrite outcome_bind, E. reflexivity. Qed.

(** ** The tests of [Init] *)

Lemma native_and_crop_pass options param :
  native_and_crop_failure options param = None <->
  (0 <? native_width options) = true
  /\ (0 <? native_height options) = true
  /\ (stored_crop_height param <=? native_height options) = true
  /\ (stored_crop_width param <=? native_width options) = true.
Proof.
  unfold native_and_crop_failure. cbn zeta.
  destruct (0 <? native_width options); cbn; [| intuition discriminate].
  destruct (0 <? native_height options); cbn; [| intuition discriminate].
  destruct (stored_crop_height param <=? native_height options);
    cbn; [| intuition discriminate].
  destruct (stored_crop_width param <=? native_width options);
    cbn; intuition discriminate.
Qed.

Lemma geometry_checks_split options param :
  geometry_checks options param = true <->
  native_and_crop_failure options param = None
  /\ resize_failure param = None.
Proof.
  rewrite native_and_crop_pass. unfold geometry_checks, resize_failure.
  cbn zeta. rewrite !andb_true_iff.
  destruct (0 <? resized_width param); cbn; [| intuition discriminate].
  destruct (0 <? resized_height param); cbn; intuition discriminate.
Qed.

(** ** The decisions of [Init] *)

(** Find an event in a list of events given as a concatenation. *)
Ltac find_event :=
  cbn [app];
  repeat first [ apply list_elem_of_here
               | apply list_elem_of_further
               | (apply elem_of_app; right) ].

Lemma lookup_first_snoc {A} (l : list A) (a : A) :
  exists b, (l ++ [a]) !! 0%nat = Some b.
Proof. destruct l; cbn; eauto. Qed.

(** Every decision of [Init] after the configuration is read, in the order
    of the source, with the outcome and the collaborator calls made up to
    there. *)
Lemma Init_decisions {Net} `{!Inference Net}
    (platform : Platform Net) (this : DenselineLaneDetector Net)
    (options : LaneDetectorInitOptions) (param : DenselineParam) :
  loaded_param platform options = Some param ->
  exists input_name,
    input_names this param !! 0%nat = Some input_name
    /\ match native_and_crop_failure options param with
       | Some msg =>
           outcome (Init platform this options) = Fatal msg
           /\ calls (events (Init platform this options))
              = Init_calls_upto platform 1 this options param input_name
       | None =>
           match created_engine platform this options param with
           | None =>
               outcome (Init platform this options)
               = Fatal "Check failed: rt_net_ != nullptr"
               /\ calls (events (Init platform this options))
                  = Init_calls_upto platform 3 this options param input_name
           | Some net =>
               match resize_failure param with
               | Some msg =>
                   outcome (Init platform this options) = Fatal msg
                   /\ calls (events (Init platform this options))
                      = Init_calls_upto platform 4 this options param
                          input_name
               | None =>
                   let '(ok, net') :=
                     net_Init {[ input_name := input_shape param ]}
                       (net_set_gpu_id (gpu_id options) net) in
                   calls (events (Init platform this options))
                   = Init_calls_upto platform 5 this options param input_name
                   /\ if ok then
                        if resolves (fun name => net_get_blob name net')
                             (input_names this param)
                        then
                          if resolves (fun name => net_get_blob name net')
                               (output_names this param)
                          then exists d,
                                 outcome (Init platform this options)
                                 = Done (true, d)
                                 /\ rt_net_ d = Some net'
                          else outcome (Init platform this options) = Crash
                        else outcome (Init platform this options) = Crash
                      else exists d,
                             outcome (Init platform this options)
                             = Done (false, d)
                             /\ rt_net_ d = Some net'
                             /\ Log SevINFO "net init fail."
                                  ∈ events (Init platform this options)
               end
           end
       end.
Proof.
  unfold loaded_param. intros Hparam.
  destruct (lookup_first_snoc (net_inputs_ this) (in_blob (net_param param)))
    as [input_name Hname].
  exists input_name. split; [exact Hname |].
  remember (events (Init platform this options)) as tr eqn:Htr.
  remember (outcome (Init platform this options)) as o eqn:Ho.
  revert Htr Ho.
  unfold native_and_crop_failure, resize_failure, created_engine,
    output_names, input_names, model_root, input_shape, Init_calls_upto.
  cbn [take]. unfold Init. run.
  destruct (GetProtoFromFile _ _) as [param0 | leaves]; [| discriminate Hparam].
  injection Hparam as ->. run.
  rewrite camera_outcome, camera_events. run. rewrite Hname. run.
  change (uint16_t (crop_height (model_param param)))
    with (stored_crop_height param).
  change (uint16_t (crop_width (model_param param)))
    with (stored_crop_width param).
  change (binary32 (resize_scale (model_param param)))
    with (stored_scale param).
  change (scaled_size (stored_crop_height param) (stored_scale param))
    with (resized_height param).
  change (scaled_size (stored_crop_width param) (stored_scale param))
    with (resized_width param).
  destruct (0 <? native_width options); run; cbn [negb];
    [| intros -> ->; split; [reflexivity | calls_simpl; reflexivity]].
  destruct (0 <? native_height options); run; cbn [negb];
    [| intros -> ->; split; [reflexivity | calls_simpl; reflexivity]].
  destruct (stored_crop_height param <=? native_height options);
    run; cbn [negb];
    [| intros -> ->; split; [reflexivity | calls_simpl; reflexivity]].
  destruct (stored_crop_width param <=? native_width options);
    run; cbn [negb];
    [| intros -> ->; split; [reflexivity | calls_simpl; reflexivity]].
  destruct (is_bgr (model_param param)); run.
  all: destruct (CreateInferenceByName _ _ _ _ _ _ _) as [net |]; run;
    [| intros -> ->; split; [reflexivity | calls_simpl; reflexivity]].
  all: destruct (0 <? resized_width param); run; cbn [negb];
    [| intros -> ->; split; [reflexivity | calls_simpl; reflexivity]].
  all: destruct (0 <? resized_height param); run; cbn [negb];
    [| intros -> ->; split; [reflexivity | calls_simpl; reflexivity]].
  all: destruct (net_Init _ _) as [ok net']; run.
  all: destruct ok; run.
  all: try (intros -> ->; split; [calls_simpl; reflexivity |]; eexists;
            split; [reflexivity |]; split; [reflexivity |]; find_event).
  all: destruct (resolves (fun a => net_get_blob a net')
                   (net_inputs_ this ++ [in_blob (net_param param)])); run;
    [| intros -> ->; split; [calls_simpl; reflexivity | reflexivity]].
  all: destruct (resolves (fun a => net_get_blob a net') _); run;
    [| intros -> ->; split; [calls_simpl; reflexivity | reflexivity]].
  all: intros -> ->; split; [calls_simpl; reflexivity |];
    eexists; split; reflexivity.
Qed.

(** * Properties of the specification *)

(** ** The crop region *)

(** C1, counterexample.  Native size 1920 x 1080, crop region of size
    1920 x 480 at offset (100, 700): the region leaves the frame on both
    axes (100 + 1920 > 1920, 700 + 480 > 1080), and [Init] returns [true]
    with that region as the crop of the data provider. *)
Lemma Init_accepts_crop_outside_frame :
  let param := TestEngine.param 100 700 1920 480 (1 # 2) [] in
  let options := TestEngine.options TestEngine.hd_camera in
  input_offset_x (model_param param) + crop_width (model_param param)
    > native_width options
  /\ input_offset_y (model_param param) + crop_height (model_param param)
    > native_height options
  /\ exists d,
       outcome (Init (TestEngine.platform param) TestEngine.fresh options)
       = Done (true, d)
       /\ crop_roi (data_provider_image_option_ d)
          = RectI.mk 100 700 1920 480.
Proof.
  cbn zeta. split; [reflexivity |]. split; [reflexivity |].
  eexists. split; vm_compute; reflexivity.
Qed.

(** C1, amended.  The two tests are on the members after the assignments
    of source lines 52-71, the height first, and do not count the
    offsets.  With a positive recorded native size: when the crop height
    held by [crop_height_] exceeds the native height held by
    [input_height_], [Init] is terminated by the failed
    [CHECK_LE(crop_height_, input_height_)]; when the height passes and
    the crop width held by [crop_width_] exceeds the native width held by
    [input_width_], [Init] is terminated by the failed
    [CHECK_LE(crop_width_, input_width_)].  In both cases only the
    configuration has been read.  Whenever [Init] returns, the four
    members are the configured and native values modulo 2^16 and the crop
    size (without the offsets) fits the native size. *)
Theorem Init_crop_size_check {Net} `{!Inference Net}
    (platform : Platform Net) (this : DenselineLaneDetector Net)
    (options : LaneDetectorInitOptions) (param : DenselineParam) :
  loaded_param platform options = Some param ->
  (0 < native_width options ->
   0 < native_height options ->
   native_height options < uint16_t (crop_height (model_param param)) ->
   outcome (Init platform this options)
   = Fatal "crop height larger than input height"
   /\ calls (events (Init platform this options))
      = [Call_GetProtoFromFile
           (GetAbsolutePath platform (root_dir options) (conf_file options))])
  /\ (0 < native_width options ->
      0 < native_height options ->
      uint16_t (crop_height (model_param param)) <= native_height options ->
      native_width options < uint16_t (crop_width (model_param param)) ->
      outcome (Init platform this options)
      = Fatal "crop width larger than input width"
      /\ calls (events (Init platform this options))
         = [Call_GetProtoFromFile
              (GetAbsolutePath platform (root_dir options)
                 (conf_file options))])
  /\ (forall b d,
        outcome (Init platform this options) = Done (b, d) ->
        crop_width_ d = uint16_t (crop_width (model_param param))
        /\ crop_height_ d = uint16_t (crop_height (model_param param))
        /\ input_width_ d = native_width options
        /\ input_height_ d = native_height options
        /\ crop_width_ d <= input_width_ d
        /\ crop_height_ d <= input_height_ d).
Proof.
  intros Hparam.
  destruct (Init_decisions platform this options param Hparam)
    as (name & _ & Hd).
  unfold native_and_crop_failure, stored_crop_height, stored_crop_width in Hd.
  split; [| split].
  - intros Hw Hh Hcrop.
    apply Z.ltb_lt in Hw, Hh. apply Z.leb_gt in Hcrop.
    rewrite Hw, Hh, Hcrop in Hd. exact Hd.
  - intros Hw Hh Hheight Hcrop.
    apply Z.ltb_lt in Hw, Hh. apply Z.leb_le in Hheight.
    apply Z.leb_gt in Hcrop.
    rewrite Hw, Hh, Hheight, Hcrop in Hd. exact Hd.
  - intros b d E.
    destruct (Init_returned _ _ _ _ _ _ Hparam E) as [Hchecks Hconf].
    apply geometry_checks_true in Hchecks.
    destruct Hconf as (_ & _ & -> & -> & _ & _ & -> & -> & _).
    unfold stored_crop_height, stored_crop_width in *.
    repeat split; lia.
Qed.

(** Native 1920 x 1080: the crop 1920 x 1200 fails the test of the
    height, the crop 2000 x 480 the test of the width, and the detector
    of the example holds a crop that fits. *)
Lemma Init_crop_size_check_witness :
  outcome (Init (TestEngine.platform (TestEngine.param 0 0 1920 1200 (1 # 2) []))
             TestEngine.fresh (TestEngine.options TestEngine.hd_camera))
  = Fatal "crop height larger than input height"
  /\ outcome (Init (TestEngine.platform
                      (TestEngine.param 0 0 2000 480 (1 # 2) []))
                TestEngine.fresh (TestEngine.options TestEngine.hd_camera))
     = Fatal "crop width larger than input width"
  /\ crop_width_ TestEngine.lane_detector <= input_width_ TestEngine.lane_detector
  /\ crop_height_ TestEngine.lane_detector
     <= input_height_ TestEngine.lane_detector.
Proof.
  split; [| split].
  - apply (proj1 (Init_crop_size_check
                    (TestEngine.platform
                       (TestEngine.param 0 0 1920 1200 (1 # 2) []))
                    TestEngine.fresh (TestEngine.options TestEngine.hd_camera)
                    (TestEngine.param 0 0 1920 1200 (1 # 2) []) eq_refl));
      vm_compute; reflexivity.
  - apply (proj1 (proj2 (Init_crop_size_check
                    (TestEngine.platform
                       (TestEngine.param 0 0 2000 480 (1 # 2) []))
                    TestEngine.fresh (TestEngine.options TestEngine.hd_camera)
                    (TestEngine.param 0 0 2000 480 (1 # 2) []) eq_refl)));
      vm_compute; solve [reflexivity | discriminate].
  - apply (proj2 (proj2 (Init_crop_size_check
                    (TestEngine.platform TestEngine.lane_param)
                    TestEngine.fresh (TestEngine.options TestEngine.hd_camera)
                    TestEngine.lane_param eq_refl)) true).
    vm_compute. reflexivity.
Defined.

(** ** The resized size *)

(** C2, counterexample.  Native size 1920 x 1080, scale 0.33 (33/100),
    crop width 101 and crop height 100: the product 101 x 0.33 = 33.33 is
    not a whole number, and [Init] returns [true] with the resize width 33,
    the product with its fractional part discarded. *)
Lemma Init_accepts_fractional_resize :
  let param := TestEngine.param 0 300 101 100 (33 # 100) [] in
  let options := TestEngine.options TestEngine.hd_camera in
  is_whole (inject_Z (crop_width (model_param param))
            * resize_scale (model_param param))%Q = false
  /\ is_whole (float_mul (inject_Z (crop_width (model_param param)))
                 (binary32 (resize_scale (model_param param)))) = false
  /\ exists d,
       outcome (Init (TestEngine.platform param) TestEngine.fresh options)
       = Done (true, d)
       /\ resize_width_ d = 33 /\ resize_height_ d = 33.
Proof.
  cbn zeta. split; [reflexivity |]. split; [vm_compute; reflexivity |].
  eexists. split; [vm_compute; reflexivity |].
  split; vm_compute; reflexivity.
Qed.

(** C2, amended.  [Init] holds the scale in single precision and the crop
    size in 16-bit unsigned members, and computes each resized size as the
    single-precision product of the crop member and the scale, with its
    fractional part discarded, stored in a 16-bit unsigned member.  When
    one of the two resized sizes so computed is not positive, [Init] is
    terminated by a failed CHECK (the test of the resized size, or an
    earlier one); whenever [Init] returns, the resize width and height
    are these truncated products and are positive: a product that is not
    negative and below 2^16 is stored as the largest whole number not
    above it.  A fractional product is truncated, not refused. *)
Theorem Init_resize_truncates {Net} `{!Inference Net}
    (platform : Platform Net) (this : DenselineLaneDetector Net)
    (options : LaneDetectorInitOptions) (param : DenselineParam) :
  loaded_param platform options = Some param ->
  (resized_width param <= 0 \/ resized_height param <= 0 ->
   exists msg, outcome (Init platform this options) = Fatal msg)
  /\ (forall b d,
        outcome (Init platform this options) = Done (b, d) ->
        image_scale_ d = binary32 (resize_scale (model_param param))
        /\ crop_width_ d = uint16_t (crop_width (model_param param))
        /\ crop_height_ d = uint16_t (crop_height (model_param param))
        /\ resize_width_ d
           = float_to_uint16_t
               (float_mul (inject_Z (crop_width_ d)) (image_scale_ d))
        /\ resize_height_ d
           = float_to_uint16_t
               (float_mul (inject_Z (crop_height_ d)) (image_scale_ d))
        /\ 0 < resize_width_ d /\ 0 < resize_height_ d
        /\ (forall size member,
              (size, member) = (crop_width_ d, resize_width_ d)
              \/ (size, member) = (crop_height_ d, resize_height_ d) ->
              let product := float_mul (inject_Z size) (image_scale_ d) in
              (0 <= product)%Q -> float_to_int product < 65536 ->
              (inject_Z member <= product)%Q
              /\ (product < inject_Z (member + 1))%Q)).
Proof.
  intros Hparam. split.
  - intros Hresize. apply (Init_geometry_rejected _ _ _ param Hparam).
    apply not_true_is_false. rewrite geometry_checks_true. lia.
  - intros b d E.
    destruct (Init_returned _ _ _ _ _ _ Hparam E) as [Hchecks Hconf].
    apply geometry_checks_true in Hchecks.
    destruct Hconf
      as (_ & _ & _ & _ & _ & _ & -> & -> & -> & -> & -> & _).
    do 7 (split; [reflexivity || lia |]).
    intros size member [[= -> ->] | [= -> ->]] product Hpos Hfit;
      apply scaled_size_truncates; assumption.
Qed.

(** Crop width 3 and scale 1/4: the resize width is 0 and [Init] is
    terminated.  Crop 380 x 380 and scale 0.65: the scale is held as
    10905190 / 2^24, the single-precision product is
    16187391 / 2^16 = 246.99998..., and the resized size is 246. *)
Lemma Init_resize_truncates_witness :
  (exists msg,
     outcome (Init (TestEngine.platform (TestEngine.param 0 0 3 480 (1 # 4) []))
                TestEngine.fresh (TestEngine.options TestEngine.hd_camera))
     = Fatal msg)
  /\ exists d,
       outcome (Init (TestEngine.platform
                        (TestEngine.param 0 0 380 380 (65 # 100) []))
                  TestEngine.fresh (TestEngine.options TestEngine.hd_camera))
       = Done (true, d)
       /\ (image_scale_ d == 10905190 # 16777216)%Q
       /\ (float_mul (inject_Z (crop_width_ d)) (image_scale_ d)
           == 16187391 # 65536)%Q
       /\ resize_width_ d = 246 /\ resize_height_ d = 246.
Proof.
  split.
  - refine (proj1 (Init_resize_truncates
                     (TestEngine.platform (TestEngine.param 0 0 3 480 (1 # 4) []))
                     TestEngine.fresh (TestEngine.options TestEngine.hd_camera)
                     (TestEngine.param 0 0 3 480 (1 # 4) []) eq_refl) _).
    left. vm_compute. discriminate.
  - assert (E : exists d,
               outcome (Init (TestEngine.platform
                                (TestEngine.param 0 0 380 380 (65 # 100) []))
                          TestEngine.fresh
                          (TestEngine.options TestEngine.hd_camera))
               = Done (true, d))
      by (eexists; vm_compute; reflexivity).
    destruct E as [d E]. exists d. split; [exact E |].
    destruct (proj2 (Init_resize_truncates
                       (TestEngine.platform
                          (TestEngine.param 0 0 380 380 (65 # 100) []))
                       TestEngine.fresh
                       (TestEngine.options TestEngine.hd_camera)
                       (TestEngine.param 0 0 380 380 (65 # 100) []) eq_refl)
               true d E)
      as (Hs & Hcw & Hch & Hw & Hh & _ & _ & _).
    rewrite Hw, Hh, Hcw, Hch, Hs. repeat split; vm_compute; reflexivity.
Defined.

(** ** The input shape *)

(** C3, counterexample.  Native size 1920 x 1080, crop 1919 x 480 and scale
    1/2: [Init] returns [true] and the only shape it passes to the engine
    is (1, 3, 240, 959), while [crop_width * scale] is 959.5.  With the
    crop 380 x 380 and the scale 0.65 the shape passed is
    (1, 3, 246, 246), while 380 x 0.65 is 247. *)
Lemma Init_passes_truncated_shape :
  let param := TestEngine.param 0 300 1919 480 (1 # 2) [] in
  let options := TestEngine.options TestEngine.hd_camera in
  let run := Init (TestEngine.platform param) TestEngine.fresh options in
  (exists d, outcome run = Done (true, d))
  /\ (forall shapes,
        Call_net_Init shapes ∈ events run ->
        shapes = {[ "data" := [1; 3; 240; 959] ]})
  /\ Call_net_Init {[ "data" := [1; 3; 240; 959] ]} ∈ events run
  /\ ~ (inject_Z 959 == inject_Z (crop_width (model_param param))
                        * resize_scale (model_param param))%Q
  /\ Call_net_Init {[ "data" := [1; 3; 246; 246] ]}
       ∈ events (Init (TestEngine.platform
                         (TestEngine.param 0 300 380 380 (65 # 100) []))
                   TestEngine.fresh options)
  /\ (inject_Z 380 * (65 # 100) == inject_Z 247)%Q.
Proof.
  cbn zeta.
  assert (E : exists d,
             outcome (Init (TestEngine.platform
                              (TestEngine.param 0 300 1919 480 (1 # 2) []))
                        TestEngine.fresh
                        (TestEngine.options TestEngine.hd_camera))
             = Done (true, d))
    by (eexists; vm_compute; reflexivity).
  split; [exact E |]. destruct E as [d E].
  destruct (Init_calls
              (TestEngine.platform (TestEngine.param 0 300 1919 480 (1 # 2) []))
              TestEngine.fresh (TestEngine.options TestEngine.hd_camera)
              (TestEngine.param 0 300 1919 480 (1 # 2) []) _ _ eq_refl E) as (name & Hname & Hcalls).
  injection Hname as <-.
  assert (Hs : input_shape (TestEngine.param 0 300 1919 480 (1 # 2) [])
               = [1; 3; 240; 959]) by (vm_compute; reflexivity).
  rewrite Hs in Hcalls.
  split; [| split; [| split; [| split]]].
  - intros shapes Hin. apply elem_of_calls in Hin; [| reflexivity].
    rewrite Hcalls in Hin.
    repeat (apply elem_of_cons in Hin as [Hin | Hin]; [try discriminate Hin |]).
    + injection Hin as ->. reflexivity.
    + inversion Hin.
  - apply (proj1 (elem_of_calls
                    (Call_net_Init {[ "data" := [1; 3; 240; 959] ]}) _ eq_refl)).
    rewrite Hcalls.
    do 4 right. left.
  - vm_compute. discriminate.
  - assert (E' : exists d',
               outcome (Init (TestEngine.platform
                                (TestEngine.param 0 300 380 380 (65 # 100) []))
                          TestEngine.fresh
                          (TestEngine.options TestEngine.hd_camera))
               = Done (true, d'))
      by (eexists; vm_compute; reflexivity).
    destruct E' as [d' E'].
    destruct (Init_calls
                (TestEngine.platform
                   (TestEngine.param 0 300 380 380 (65 # 100) []))
                TestEngine.fresh (TestEngine.options TestEngine.hd_camera)
                (TestEngine.param 0 300 380 380 (65 # 100) []) _ _ eq_refl E')
      as (name' & Hname' & Hcalls').
    injection Hname' as <-.
    assert (Hs' : input_shape (TestEngine.param 0 300 380 380 (65 # 100) [])
                  = [1; 3; 246; 246]) by (vm_compute; reflexivity).
    rewrite Hs' in Hcalls'.
    apply (proj1 (elem_of_calls
                    (Call_net_Init {[ "data" := [1; 3; 246; 246] ]}) _ eq_refl)).
    rewrite Hcalls'.
    do 4 right. left.
  - vm_compute. reflexivity.
Qed.

(** C3, amended.  For every configuration accepted by [Init], the one
    shape passed to the engine, for the first input name, is
    (1, 3, h, w) with [h] and [w] the members [resize_height_] and
    [resize_width_]: the single-precision products of the crop height and
    the crop width (as the 16-bit members hold them) and the scale (as
    held in single precision), truncated toward zero and stored in 16-bit
    members.  They are the single-precision products themselves whenever
    these are whole numbers from 0 to 2^16 - 1. *)
Theorem Init_input_shape {Net} `{!Inference Net}
    (platform : Platform Net) (this d : DenselineLaneDetector Net)
    (options : LaneDetectorInitOptions) (param : DenselineParam) :
  loaded_param platform options = Some param ->
  outcome (Init platform this options) = Done (true, d) ->
  let scale := binary32 (resize_scale (model_param param)) in
  let h :=
    float_mul (inject_Z (uint16_t (crop_height (model_param param)))) scale in
  let w :=
    float_mul (inject_Z (uint16_t (crop_width (model_param param)))) scale in
  exists input_name,
    net_inputs_ d !! 0%nat = Some input_name
    /\ (forall shapes,
          Call_net_Init shapes ∈ events (Init platform this options) <->
          shapes = {[ input_name := [1; 3; resize_height_ d; resize_width_ d] ]})
    /\ resize_height_ d = float_to_uint16_t h
    /\ resize_width_ d = float_to_uint16_t w
    /\ (is_whole h = true -> 0 <= float_to_int h < 65536 ->
        (inject_Z (resize_height_ d) == h)%Q)
    /\ (is_whole w = true -> 0 <= float_to_int w < 65536 ->
        (inject_Z (resize_width_ d) == w)%Q).
Proof.
  intros Hparam E scale h w.
  destruct (Init_calls _ _ _ _ _ _ Hparam E) as (name & Hname & Hcalls).
  destruct (Init_returned _ _ _ _ _ _ Hparam E) as [Hchecks Hconf].
  apply geometry_checks_true in Hchecks.
  destruct Hchecks as (_ & _ & _ & _ & Hposw & Hposh).
  destruct Hconf
    as (_ & _ & _ & _ & _ & _ & _ & _ & _ & Hh & Hw & _ & _ & Hin & _).
  exists name. rewrite Hin. split; [exact Hname |].
  assert (Eh : resized_height param = float_to_uint16_t h)
    by reflexivity.
  assert (Ew : resized_width param = float_to_uint16_t w)
    by reflexivity.
  rewrite Hh, Hw. split; [| split; [exact Eh | split; [exact Ew |]]].
  - intros shapes.
    rewrite <- (elem_of_calls (Call_net_Init shapes) _ eq_refl), Hcalls.
    unfold input_shape. split.
    + intros Hin'.
      repeat (apply elem_of_cons in Hin' as [Hin' | Hin'];
              [try discriminate Hin' |]).
      * injection Hin' as ->. reflexivity.
      * inversion Hin'.
    + intros ->. do 4 right. left.
  - rewrite Eh, Ew in *. split; intros Hwhole Hfit.
    + rewrite (float_to_uint16_t_fits _ Hfit).
      apply float_to_int_whole, Hwhole.
    + rewrite (float_to_uint16_t_fits _ Hfit).
      apply float_to_int_whole, Hwhole.
Qed.

(** The example of the specification: native 1920 x 1080, crop
    (0, 300) 1920 x 480, scale 0.5: the shape passed is (1, 3, 240, 960). *)
Lemma Init_input_shape_witness :
  Call_net_Init {[ "data" := [1; 3; 240; 960] ]}
    ∈ events (Init (TestEngine.platform TestEngine.lane_param)
                TestEngine.fresh (TestEngine.options TestEngine.hd_camera))
  /\ resize_height_ TestEngine.lane_detector = 240
  /\ resize_width_ TestEngine.lane_detector = 960.
Proof.
  assert (E : outcome (Init (TestEngine.platform TestEngine.lane_param)
                         TestEngine.fresh (TestEngine.options TestEngine.hd_camera))
              = Done (true, TestEngine.lane_detector))
    by (vm_compute; reflexivity).
  destruct (Init_input_shape (TestEngine.platform TestEngine.lane_param)
              TestEngine.fresh _ (TestEngine.options TestEngine.hd_camera)
              TestEngine.lane_param eq_refl E)
    as (name & Hname & Hshape & Hh & Hw & _).
  assert (name = "data") as -> by (vm_compute in Hname; congruence).
  split; [apply Hshape; vm_compute; reflexivity |].
  split; [rewrite Hh | rewrite Hw]; vm_compute; reflexivity.
Defined.

(** ** The frame size *)

(** C4, counterexample.  The detector of the example (native size
    1920 x 1080) and a frame reporting 1280 x 720: [Detect] does not return
    [false], it is terminated by the failed [CHECK_EQ]; a [Detect] with a
    1920 x 1080 frame placed after it never runs, although the same call
    on its own returns [true]. *)
Lemma Detect_wrong_size_is_fatal :
  let d := TestEngine.lane_detector in
  let bad := Some (TestEngine.frame 1280 720) in
  let good := Some (TestEngine.frame 1920 1080) in
  (input_width_ d, input_height_ d) = (1920, 1080)
  /\ Detect d mkLaneDetectorOptions bad
     = ([], Fatal "Input size is not correct: ")
  /\ (forall r, outcome (Detect d mkLaneDetectorOptions bad) <> Done r)
  /\ outcome ('(_, d1, _) ← Detect d mkLaneDetectorOptions bad;
              Detect d1 mkLaneDetectorOptions good)
     = Fatal "Input size is not correct: "
  /\ exists d2 fr,
       outcome (Detect d mkLaneDetectorOptions good) = Done (true, d2, fr).
Proof.
  cbn zeta. split; [reflexivity |].
  assert (E : Detect TestEngine.lane_detector mkLaneDetectorOptions
                (Some (TestEngine.frame 1280 720))
              = ([], Fatal "Input size is not correct: "))
    by (vm_compute; reflexivity).
  split; [exact E |]. split; [| split].
  - intros r. rewrite E. discriminate.
  - apply outcome_bind_Fatal. rewrite E. reflexivity.
  - do 2 eexists. vm_compute. reflexivity.
Qed.

(** C4, amended.  For a detector that recorded the native size W x H,
    [Detect] on a frame whose reported width or height differs is
    terminated by the failed [CHECK_EQ] before the data provider, the
    resize kernel or the network is invoked (no later [Detect] runs);
    [Detect] on a frame reporting exactly W x H passes the test and asks
    the data provider for the image, and it reaches inference and returns
    [true] when the image is obtained and the input tensor has the
    resolved size. *)
Theorem Detect_frame_size_check {Net} `{!Inference Net}
    (this : DenselineLaneDetector Net) (options : LaneDetectorOptions)
    (fr : CameraFrame) (provider : DataProvider) :
  data_provider fr = Some provider ->
  (input_width_ this <> src_width provider
   \/ input_height_ this <> src_height provider ->
   Detect this options (Some fr) = ([], Fatal "Input size is not correct: "))
  /\ (input_width_ this = src_width provider ->
      input_height_ this = src_height provider ->
      (exists tr,
         events (Detect this options (Some fr))
         = Call_GetImage (data_provider_image_option_ this) :: tr)
      /\ forall image net input_name input_blob output_name,
           GetImage provider (data_provider_image_option_ this) = Some image ->
           rt_net_ this = Some net ->
           net_inputs_ this !! 0%nat = Some input_name ->
           net_get_blob input_name net = Some input_blob ->
           height input_blob = resize_height_ this ->
           width input_blob = resize_width_ this ->
           net_outputs_ this !! 0%nat = Some output_name ->
           Call_Infer ∈ events (Detect this options (Some fr))
           /\ outcome (Detect this options (Some fr))
              = Done (true, detected this image net,
                      Some (published fr output_name net))).
Proof.
  intros Hprov. split.
  - apply Detect_size_mismatch. exact Hprov.
  - intros Hw Hh. split.
    + apply (Detect_size_match this options fr provider Hprov Hw Hh).
    + intros image net input_name input_blob output_name
        Himg Hnet Hname Hblob Eh Ew Hout.
      rewrite (Detect_succeeds this options fr provider image net input_name
                 input_blob output_name) by assumption.
      split; [| reflexivity].
      cbn [events fst]. do 5 right. left.
Qed.

Lemma Detect_frame_size_check_witness :
  Detect TestEngine.lane_detector mkLaneDetectorOptions
    (Some (TestEngine.frame 1280 720))
  = ([], Fatal "Input size is not correct: ")
  /\ (exists tr,
        events (Detect TestEngine.lane_detector mkLaneDetectorOptions
                  (Some (TestEngine.frame 1920 1080)))
        = Call_GetImage
            (data_provider_image_option_ TestEngine.lane_detector) :: tr)
  /\ Call_Infer ∈ events (Detect TestEngine.lane_detector mkLaneDetectorOptions
                            (Some (TestEngine.frame 1920 1080))).
Proof.
  split; [| split].
  - refine (proj1 (Detect_frame_size_check TestEngine.lane_detector
                     mkLaneDetectorOptions (TestEngine.frame 1280 720)
                     _ eq_refl) _).
    left. vm_compute. discriminate.
  - exact (proj1 (proj2 (Detect_frame_size_check TestEngine.lane_detector
                           mkLaneDetectorOptions (TestEngine.frame 1920 1080)
                           _ eq_refl) eq_refl eq_refl)).
  - edestruct (proj2 (proj2 (Detect_frame_size_check TestEngine.lane_detector
                               mkLaneDetectorOptions
                               (TestEngine.frame 1920 1080) _ eq_refl)
                        eq_refl eq_refl)) as [Hinfer _].
    1-7: vm_compute; reflexivity.
    exact Hinfer.
Defined.

(** ** The input tensor *)

(** C5, counterexample.  The detector of the example, resolved to an input
    of 240 x 960, whose engine was re-bound from outside to an input of
    100 x 100, and a frame of the recorded size 1920 x 1080.  [Detect]
    does not return a failure and leaves no detector in a failed state:
    it is terminated by the failed [CHECK_EQ] and returns nothing, and a
    [Detect] placed after it never runs.  The object carries no mark of
    the failure either: the same object, with the engine bound back to
    240 x 960, is accepted by [Detect], which returns [true]. *)
Lemma Detect_shape_drift_is_fatal :
  let d := TestEngine.rebound 100 100 TestEngine.lane_detector in
  let good := Some (TestEngine.frame 1920 1080) in
  (exists net blob,
     rt_net_ d = Some net
     /\ net_get_blob "data" net = Some blob
     /\ (height blob, width blob) = (100, 100)
     /\ (resize_height_ d, resize_width_ d) = (240, 960))
  /\ outcome (Detect d mkLaneDetectorOptions good)
     = Fatal "height is not equal"
  /\ (forall r, outcome (Detect d mkLaneDetectorOptions good) <> Done r)
  /\ outcome ('(_, d1, _) ← Detect d mkLaneDetectorOptions good;
              Detect d1 mkLaneDetectorOptions good)
     = Fatal "height is not equal"
  /\ exists d2 fr,
       outcome (Detect (TestEngine.rebound 960 240 d) mkLaneDetectorOptions
                  good)
       = Done (true, d2, fr).
Proof.
  cbn zeta.
  assert (E : outcome (Detect
                         (TestEngine.rebound 100 100 TestEngine.lane_detector)
                         mkLaneDetectorOptions
                         (Some (TestEngine.frame 1920 1080)))
              = Fatal "height is not equal")
    by (vm_compute; reflexivity).
  split; [| split; [exact E | split; [| split]]].
  - do 2 eexists. split; [vm_compute; reflexivity |].
    split; [vm_compute; reflexivity |].
    split; vm_compute; reflexivity.
  - intros r. rewrite E. discriminate.
  - apply outcome_bind_Fatal. exact E.
  - do 2 eexists. vm_compute. reflexivity.
Qed.

(** C5, amended.  Every [Detect] call that reaches the input tensor --
    it is given a frame of the recorded size, obtains the image, and the
    detector holds an engine and a first input name that the engine
    knows -- tests the height and width of the live input tensor against
    the resize height and width of [Init]; if they differ, [Detect] is
    terminated by the failed [CHECK_EQ], before the resize kernel and the
    network run, and nothing that follows the call runs; a [Detect] that
    returns for a frame found them equal. *)
Theorem Detect_revalidates_input_shape {Net} `{!Inference Net}
    (this : DenselineLaneDetector Net) (options : LaneDetectorOptions)
    (fr : CameraFrame) (provider : DataProvider) (image : Image8U)
    (net : Net) (input_name : string) (input_blob : Blob) :
  data_provider fr = Some provider ->
  input_width_ this = src_width provider ->
  input_height_ this = src_height provider ->
  GetImage provider (data_provider_image_option_ this) = Some image ->
  rt_net_ this = Some net ->
  net_inputs_ this !! 0%nat = Some input_name ->
  net_get_blob input_name net = Some input_blob ->
  (height input_blob <> resize_height_ this
   \/ width input_blob <> resize_width_ this ->
   exists msg,
     Detect this options (Some fr)
     = ([Call_GetImage (data_provider_image_option_ this);
         Log SevINFO "input_blob: "], Fatal msg)
     /\ (msg = "height is not equal" \/ msg = "width is not equal")
     /\ forall (B : Type) (next : _ -> Run B),
          outcome (Detect this options (Some fr) ≫= next) = Fatal msg)
  /\ (forall r d frame',
        outcome (Detect this options (Some fr)) = Done (r, d, frame') ->
        height input_blob = resize_height_ this
        /\ width input_blob = resize_width_ this).
Proof.
  intros Hprov Hw Hh Himg Hnet Hname Hblob. split.
  - intros Hshape.
    destruct (Detect_shape_mismatch this options fr provider image net
                input_name input_blob Hprov Hw Hh Himg Hnet Hname Hblob Hshape)
      as (msg & E & Hmsg).
    exists msg. split; [exact E |]. split; [exact Hmsg |].
    intros B next. apply outcome_bind_Fatal. rewrite E. reflexivity.
  - intros r d frame' E.
    apply Detect_Done in E as [([=] & _) | E].
    destruct E as (fr' & provider' & image' & net' & input_name' & input_blob'
                   & output_name & _ & _ & _ & _ & _ & Hnet' & Hname' & Hblob'
                   & Eh & Ew & _).
    rewrite Hnet in Hnet'. injection Hnet' as <-.
    rewrite Hname in Hname'. injection Hname' as <-.
    rewrite Hblob in Hblob'. injection Hblob' as <-.
    auto.
Qed.

Lemma Detect_revalidates_input_shape_witness :
  (exists msg,
     Detect (TestEngine.rebound 100 100 TestEngine.lane_detector)
       mkLaneDetectorOptions (Some (TestEngine.frame 1920 1080))
     = ([Call_GetImage
           (data_provider_image_option_
              (TestEngine.rebound 100 100 TestEngine.lane_detector));
         Log SevINFO "input_blob: "], Fatal msg)
     /\ (msg = "height is not equal" \/ msg = "width is not equal"))
  /\ exists input_blob,
       net_get_blob "data"
         (TestEngine.mk ["data"; "conv_out"; "conv_int8"]
            {[ "data" := [1; 3; 240; 960] ]} true 0) = Some input_blob
       /\ height input_blob = resize_height_ TestEngine.lane_detector
       /\ width input_blob = resize_width_ TestEngine.lane_detector.
Proof.
  split.
  - edestruct (Detect_revalidates_input_shape
                 (TestEngine.rebound 100 100 TestEngine.lane_detector)
                 mkLaneDetectorOptions (TestEngine.frame 1920 1080))
      as [Hfatal _].
    1-7: vm_compute; reflexivity.
    destruct Hfatal as (msg & E & Hmsg & _).
    { left. vm_compute. discriminate. }
    exists msg. split; [exact E | exact Hmsg].
  - edestruct (Detect_revalidates_input_shape TestEngine.lane_detector
                 mkLaneDetectorOptions (TestEngine.frame 1920 1080))
      as [_ Hequal].
    1-7: vm_compute; reflexivity.
    eexists. split; [vm_compute; reflexivity |].
    eapply Hequal. vm_compute. reflexivity.
Defined.

(** ** The published output *)

(** C6, counterexample.  The detector of the example, initialised a
    second time with a configuration whose [out_blob] is "lanes": [Init]
    returns [true], the output names are the old ones followed by the
    new ones, and a successful [Detect] attaches the tensor of the old
    first name "conv_out", which is not the tensor of the configured
    [out_blob]. *)
Lemma Detect_publishes_stale_output :
  let param := Scenarios.renamed "image" "lanes" TestEngine.lane_param in
  let options := TestEngine.options TestEngine.hd_camera in
  out_blob (net_param param) = "lanes"
  /\ exists d d' fr net,
       outcome (Init (TestEngine.platform param) TestEngine.lane_detector
                  options)
       = Done (true, d)
       /\ net_outputs_ d = ["conv_out"; "conv_int8"; "lanes"; "conv_int8"]
       /\ outcome (Detect d mkLaneDetectorOptions
                     (Some (TestEngine.frame 1920 1080)))
          = Done (true, d', Some fr)
       /\ rt_net_ d' = Some net
       /\ lane_detected_blob fr = net_get_blob "conv_out" net
       /\ lane_detected_blob fr <> net_get_blob "lanes" net.
Proof.
  cbn zeta. split; [reflexivity |].
  do 4 eexists. split; [vm_compute; reflexivity |].
  split; [vm_compute; reflexivity |].
  split; [vm_compute; reflexivity |].
  split; [vm_compute; reflexivity |].
  split; vm_compute; [reflexivity | discriminate].
Qed.

(** C6, amended.  On a detector initialised from a freshly constructed
    object (one whose vectors of tensor names are empty), the
    output name sequence starts with the configured [out_blob], whatever
    additional names ([internal_blob_int8]) are configured; and after
    every successful [Detect], at any later time, the tensor attached to
    the frame's [lane_detected_blob] is the one the engine, after
    inference, binds to that name. *)
Theorem Detect_publishes_first_output {Net} `{!Inference Net}
    (platform : Platform Net) (this d : DenselineLaneDetector Net)
    (options : LaneDetectorInitOptions) (param : DenselineParam) :
  constructed this ->
  loaded_param platform options = Some param ->
  outcome (Init platform this options) = Done (true, d) ->
  net_outputs_ d
  = out_blob (net_param param) :: internal_blob_int8 (net_param param)
  /\ forall d1, later d d1 ->
     forall opts frame d2 frame',
       outcome (Detect d1 opts frame) = Done (true, d2, frame') ->
       exists fr fr' net,
         frame = Some fr /\ frame' = Some fr'
         /\ rt_net_ d1 = Some net
         /\ rt_net_ d2 = Some (net_Infer net)
         /\ net_outputs_ d1 !! 0%nat = Some (out_blob (net_param param))
         /\ lane_detected_blob fr'
            = net_get_blob (out_blob (net_param param)) (net_Infer net).
Proof.
  intros (_ & _ & Hout) Hparam E. apply Init_outcome in E.
  rewrite Hparam in E.
  destruct (geometry_checks options param); [| destruct E; discriminate].
  destruct E as (_ & _ & _ & _ & _ & _ & _ & _ & _ & _ & _ & _ & _ & _ & E & _).
  rewrite Hout in E. cbn in E. split; [exact E |].
  intros d1 Hlater opts frame d2 frame' Hdetect.
  apply later_same_configuration in Hlater
    as (_ & _ & _ & _ & _ & _ & _ & _ & Hsame).
  apply Detect_Done in Hdetect as [(_ & [=] & _) | Hdetect].
  destruct Hdetect as (fr & provider & image & net & input_name & input_blob
                       & output_name & -> & _ & _ & _ & _ & Hnet & _ & _ & _
                       & _ & Hname & _ & -> & ->).
  rewrite Hsame, E in Hname. injection Hname as <-.
  exists fr, (published fr (out_blob (net_param param)) net), net.
  rewrite Hsame, E. repeat split; assumption || reflexivity.
Qed.

Lemma Detect_publishes_first_output_witness :
  exists d2 fr',
    outcome (Detect TestEngine.lane_detector mkLaneDetectorOptions
               (Some (TestEngine.frame 1920 1080)))
    = Done (true, d2, Some fr')
    /\ net_outputs_ TestEngine.lane_detector = ["conv_out"; "conv_int8"]
    /\ lane_detected_blob fr'
       = Some {| blob_id := 1; channels := 1; height := 1; width := 1 |}.
Proof.
  assert (E : outcome (Init (TestEngine.platform TestEngine.lane_param)
                         TestEngine.fresh
                         (TestEngine.options TestEngine.hd_camera))
              = Done (true, TestEngine.lane_detector))
    by (vm_compute; reflexivity).
  destruct (Detect_publishes_first_output
              (TestEngine.platform TestEngine.lane_param) TestEngine.fresh
              TestEngine.lane_detector
              (TestEngine.options TestEngine.hd_camera) TestEngine.lane_param
              (conj eq_refl (conj eq_refl eq_refl)) eq_refl E) as [Hout Hpub].
  destruct (outcome (Detect TestEngine.lane_detector mkLaneDetectorOptions
                       (Some (TestEngine.frame 1920 1080))))
    as [[[r d2] frame'] | msg |] eqn:Edet;
    try (vm_compute in Edet; discriminate Edet).
  assert (r = true) as -> by (vm_compute in Edet; congruence).
  destruct (Hpub _ (later_now _) _ _ _ _ Edet)
    as (fr & fr' & net & _ & -> & Hnet & _ & _ & Hblob).
  exists d2, fr'. split; [reflexivity |]. split; [exact Hout |].
  rewrite Hblob. vm_compute in Hnet. injection Hnet as <-.
  vm_compute. reflexivity.
Defined.

(** ** Absent frame *)

(** C7. For every call of [Detect] with no frame, [Detect] returns [false];
    nothing is published (no frame comes back), the detector is unchanged,
    and the run consists of one log line: the data provider, the resize
    kernel and the network are not invoked. *)
Theorem Detect_null_frame {Net} `{!Inference Net}
    (this : DenselineLaneDetector Net) (options : LaneDetectorOptions) :
  outcome (Detect this options None) = Done (false, this, None)
  /\ events (Detect this options None)
     = [Log SevINFO "camera frame is empty."]
  /\ calls (events (Detect this options None)) = []
  /\ (forall opt, Call_GetImage opt ∉ events (Detect this options None))
  /\ (forall src dst w a m0 m1 m2 c s,
        Call_ResizeGPU src dst w a m0 m1 m2 c s
          ∉ events (Detect this options None))
  /\ Call_Infer ∉ events (Detect this options None).
Proof.
  rewrite Detect_null. cbn.
  repeat split; try reflexivity; intros; rewrite list_elem_of_singleton;
    discriminate.
Qed.

(** ** No camera model *)

(** C8. When the caller supplies no camera model and the configuration is
    read, [Init] logs ["options.intrinsic is nullptr!"] at severity ERROR
    (which is at least warning level), records 1920 x 1080 as the native
    size, and goes on with the initialisation: a crop that does not fit
    1920 x 1080 fails the test of the crop size; with a crop that fits,
    the device is queried and the engine factory called; and when the
    resized size is positive, the factory yields an engine, the engine
    accepts the shape and knows the configured tensors, [Init] returns
    [true] after the five collaborator calls of a complete
    initialisation, holding that engine.  It ends exactly as it would
    with a camera model of 1920 x 1080, apart from the recorded (null)
    camera model. *)
Theorem Init_without_camera_model {Net} `{!Inference Net}
    (platform : Platform Net) (this : DenselineLaneDetector Net)
    (options : LaneDetectorInitOptions) (param : DenselineParam) :
  base_camera_model options = None ->
  loaded_param platform options = Some param ->
  (exists tr,
     events (Init platform this options)
     = Call_GetProtoFromFile
         (GetAbsolutePath platform (root_dir options) (conf_file options))
       :: Log SevINFO "denseline param: "
       :: Log SevERROR "options.intrinsic is nullptr!" :: tr)
  /\ at_least_warning SevERROR = true
  /\ (forall b d,
        outcome (Init platform this options) = Done (b, d) ->
        input_width_ d = 1920 /\ input_height_ d = 1080
        /\ base_camera_model_ d = None)
  /\ (forall camera,
        get_width camera = 1920 -> get_height camera = 1080 ->
        outcome (Init platform this options)
        = map_outcome (fun '(b, d) => (b, set_base_camera_model_ None d))
            (outcome (Init platform this (with_camera (Some camera) options))))
  /\ (1080 < stored_crop_height param ->
      outcome (Init platform this options)
      = Fatal "crop height larger than input height")
  /\ (stored_crop_height param <= 1080 ->
      1920 < stored_crop_width param ->
      outcome (Init platform this options)
      = Fatal "crop width larger than input width")
  /\ exists input_name,
       input_names this param !! 0%nat = Some input_name
       /\ (stored_crop_height param <= 1080 ->
           stored_crop_width param <= 1920 ->
           exists n,
             (3 <= n)%nat
             /\ calls (events (Init platform this options))
                = Init_calls_upto platform n this options param input_name)
       /\ (forall net net',
             stored_crop_height param <= 1080 ->
             stored_crop_width param <= 1920 ->
             0 < resized_width param ->
             0 < resized_height param ->
             created_engine platform this options param = Some net ->
             net_Init {[ input_name := input_shape param ]}
               (net_set_gpu_id (gpu_id options) net) = (true, net') ->
             resolves (fun name => net_get_blob name net')
               (input_names this param) = true ->
             resolves (fun name => net_get_blob name net')
               (output_names this param) = true ->
             calls (events (Init platform this options))
             = Init_calls_upto platform 5 this options param input_name
             /\ exists d,
                  outcome (Init platform this options) = Done (true, d)
                  /\ rt_net_ d = Some net'
                  /\ input_width_ d = 1920 /\ input_height_ d = 1080).
Proof.
  intros Hcam Hparam.
  destruct (Init_decisions platform this options param Hparam)
    as (name & Hname & Hd).
  assert (Hsize : forall b d,
             outcome (Init platform this options) = Done (b, d) ->
             input_width_ d = 1920 /\ input_height_ d = 1080
             /\ base_camera_model_ d = None).
  { intros b d E. apply Init_outcome in E. rewrite Hparam in E.
    destruct (geometry_checks options param); [| destruct E; discriminate].
    destruct E as (Hc & _ & Hh & Hw & _).
    unfold native_height, native_width in *. rewrite Hcam in *. auto. }
  unfold native_and_crop_failure, native_width, native_height in Hd.
  rewrite Hcam in Hd. change (0 <? 1920) with true in Hd.
  change (0 <? 1080) with true in Hd. cbn [negb] in Hd.
  split; [| split; [reflexivity |]; split; [exact Hsize |]; split;
            [| split; [| split]]].
  - unfold loaded_param in Hparam. unfold Init. run.
    destruct (GetProtoFromFile _ _) as [param0 | leaves];
      [| discriminate Hparam].
    run. rewrite camera_events. unfold camera_log. rewrite Hcam. cbn. eauto.
  - intros camera Hw Hh. unfold loaded_param in Hparam.
    unfold Init. cbn [with_camera root_dir conf_file base_camera_model gpu_id].
    run.
    destruct (GetProtoFromFile _ _) as [param0 | leaves];
      [| discriminate Hparam].
    run. rewrite camera_outcome.
    unfold native_height, native_width. rewrite Hcam, Hw, Hh. run.
    change (uint16_t 1920) with 1920. change (uint16_t 1080) with 1080.
    change (0 <? 1920) with true. change (0 <? 1080) with true. run.
    repeat run_split; reflexivity.
  - intros Hcrop. apply Z.leb_gt in Hcrop. rewrite Hcrop in Hd. exact (proj1 Hd).
  - intros Hheight Hcrop. apply Z.leb_le in Hheight. apply Z.leb_gt in Hcrop.
    rewrite Hheight, Hcrop in Hd. exact (proj1 Hd).
  - exists name. split; [exact Hname |]. split.
    + intros Hheight Hwidth. apply Z.leb_le in Hheight, Hwidth.
      rewrite Hheight, Hwidth in Hd. cbn [negb] in Hd.
      destruct (created_engine platform this options param) as [net |];
        [| exists 3%nat; split; [lia | exact (proj2 Hd)]].
      destruct (resize_failure param);
        [exists 4%nat; split; [lia | exact (proj2 Hd)] |].
      destruct (net_Init _ _) as [ok net'].
      exists 5%nat. split; [lia | exact (proj1 Hd)].
    + intros net net' Hheight Hwidth Hrw Hrh Hnet Hinit Hin Hout.
      apply Z.leb_le in Hheight, Hwidth. apply Z.ltb_lt in Hrw, Hrh.
      rewrite Hheight, Hwidth in Hd. cbn [negb] in Hd.
      unfold resize_failure in Hd. rewrite Hnet, Hrw, Hrh in Hd.
      cbn [negb] in Hd. rewrite Hinit, Hin, Hout in Hd.
      destruct Hd as (Hcalls & d & E & Hrt).
      split; [exact Hcalls |]. exists d.
      destruct (Hsize _ _ E) as (Hw & Hh & _). auto.
Qed.

(** The configuration of the example with no camera model: the line is
    logged, the five calls are made and [Init] returns [true] with the
    native size 1920 x 1080. *)
Lemma Init_without_camera_model_witness :
  Log SevERROR "options.intrinsic is nullptr!"
    ∈ events (Init (TestEngine.platform TestEngine.lane_param)
                TestEngine.fresh (TestEngine.options None))
  /\ length (calls (events (Init (TestEngine.platform TestEngine.lane_param)
                             TestEngine.fresh (TestEngine.options None))))
     = 5%nat
  /\ exists d,
       outcome (Init (TestEngine.platform TestEngine.lane_param)
                  TestEngine.fresh (TestEngine.options None))
       = Done (true, d)
       /\ rt_net_ d <> None
       /\ input_width_ d = 1920 /\ input_height_ d = 1080.
Proof.
  destruct (Init_without_camera_model
              (TestEngine.platform TestEngine.lane_param) TestEngine.fresh
              (TestEngine.options None) TestEngine.lane_param
              eq_refl eq_refl)
    as ([tr Hlog] & _ & _ & _ & _ & _ & name & Hname & _ & Hgo).
  assert (name = "data") as -> by (vm_compute in Hname; congruence).
  split; [rewrite Hlog; do 2 right; left |].
  set (net := TestEngine.mk ["data"; "conv_out"; "conv_int8"] ∅ true 0).
  set (net' := TestEngine.mk ["data"; "conv_out"; "conv_int8"]
                 {[ "data" := [1; 3; 240; 960] ]} true 0).
  assert (Hheight : stored_crop_height TestEngine.lane_param <= 1080)
    by (vm_compute; discriminate).
  assert (Hwidth : stored_crop_width TestEngine.lane_param <= 1920)
    by (vm_compute; discriminate).
  assert (Hrw : 0 < resized_width TestEngine.lane_param)
    by (vm_compute; reflexivity).
  assert (Hrh : 0 < resized_height TestEngine.lane_param)
    by (vm_compute; reflexivity).
  assert (Hnet : created_engine (TestEngine.platform TestEngine.lane_param)
                   TestEngine.fresh (TestEngine.options None)
                   TestEngine.lane_param = Some net)
    by (vm_compute; reflexivity).
  assert (Hinit : net_Init {[ "data" := input_shape TestEngine.lane_param ]}
                    (net_set_gpu_id (gpu_id (TestEngine.options None)) net)
                  = (true, net'))
    by (vm_compute; reflexivity).
  assert (Hin : resolves (fun name => net_get_blob name net')
                  (input_names TestEngine.fresh TestEngine.lane_param) = true)
    by (vm_compute; reflexivity).
  assert (Hout : resolves (fun name => net_get_blob name net')
                   (output_names TestEngine.fresh TestEngine.lane_param)
                 = true)
    by (vm_compute; reflexivity).
  destruct (Hgo net net' Hheight Hwidth Hrw Hrh Hnet Hinit Hin Hout)
    as (Hcalls & d & E & Hrt & Hw & Hh).
  split; [rewrite Hcalls; reflexivity |].
  exists d. split; [exact E |]. split; [rewrite Hrt; discriminate |].
  split; assumption.
Defined.

(** ** A second [Init] *)

(** C9, counterexample.  [Init] twice on a fresh detector with the example
    configuration.  Both calls return [true], but the second leaves every
    tensor name twice in the name sequences and makes other collaborator
    calls than the first (the engine is created for the doubled lists);
    with a factory that refuses a name list in which a name occurs twice,
    the first call returns [true] and the second is terminated. *)
Lemma second_Init_accumulates_names :
  let options := TestEngine.options TestEngine.hd_camera in
  let platform := TestEngine.platform TestEngine.lane_param in
  let strict := TestEngine.strict_platform TestEngine.lane_param in
  let d1 := TestEngine.lane_detector in
  outcome (Init platform TestEngine.fresh options) = Done (true, d1)
  /\ (exists d2,
        outcome (Init platform d1 options) = Done (true, d2)
        /\ net_inputs_ d1 = ["data"]
        /\ net_inputs_ d2 = ["data"; "data"]
        /\ net_outputs_ d1 = ["conv_out"; "conv_int8"]
        /\ net_outputs_ d2 = ["conv_out"; "conv_int8"; "conv_out"; "conv_int8"])
  /\ calls (events (Init platform d1 options))
     <> calls (events (Init platform TestEngine.fresh options))
  /\ outcome (Init strict TestEngine.fresh options) = Done (true, d1)
  /\ outcome (Init strict d1 options)
     = Fatal "Check failed: rt_net_ != nullptr".
Proof.
  cbn zeta. split; [vm_compute; reflexivity |]. split; [| split; [| split]].
  - eexists. split; [vm_compute; reflexivity |].
    repeat split; vm_compute; reflexivity.
  - vm_compute. discriminate.
  - vm_compute. reflexivity.
  - vm_compute. reflexivity.
Qed.

(** C9, amended.  [Init] on a freshly constructed detector, then [Init]
    again with the same options on the same platform.  The second call
    passes every geometry test again: it can be terminated only by the
    factory returning no engine, and it returns [true] when the factory
    yields an engine for the name lists of the second call that accepts the
    shape and knows those names.  Whenever it returns, it leaves the same
    resolved geometry (native size, crop, scale, resize width and height),
    the same image options and mean values, and the same first input and
    first output name as the first call, and it passes the same shape to
    the engine. *)
Theorem Init_twice {Net} `{!Inference Net}
    (platform : Platform Net) (this d1 : DenselineLaneDetector Net)
    (options : LaneDetectorInitOptions) (param : DenselineParam) :
  constructed this ->
  loaded_param platform options = Some param ->
  outcome (Init platform this options) = Done (true, d1) ->
  (forall msg,
     outcome (Init platform d1 options) = Fatal msg ->
     msg = "Check failed: rt_net_ != nullptr"
     /\ created_engine platform d1 options param = None)
  /\ (forall net net',
        created_engine platform d1 options param = Some net ->
        net_Init {[ in_blob (net_param param) := input_shape param ]}
          (net_set_gpu_id (gpu_id options) net) = (true, net') ->
        resolves (fun name => net_get_blob name net') (input_names d1 param)
          = true ->
        resolves (fun name => net_get_blob name net') (output_names d1 param)
          = true ->
        exists d2, outcome (Init platform d1 options) = Done (true, d2))
  /\ (forall b d2,
        outcome (Init platform d1 options) = Done (b, d2) ->
        resolved_geometry d2 = resolved_geometry d1
        /\ data_provider_image_option_ d2 = data_provider_image_option_ d1
        /\ image_mean_ d2 = image_mean_ d1
        /\ net_inputs_ d1 !! 0%nat = Some (in_blob (net_param param))
        /\ net_inputs_ d2 !! 0%nat = Some (in_blob (net_param param))
        /\ net_outputs_ d1 !! 0%nat = Some (out_blob (net_param param))
        /\ net_outputs_ d2 !! 0%nat = Some (out_blob (net_param param))
        /\ forall shapes,
             Call_net_Init shapes ∈ events (Init platform d1 options) <->
             Call_net_Init shapes ∈ events (Init platform this options)).
Proof.
  intros (_ & Hin & Hout) Hparam E1.
  destruct (Init_returned _ _ _ _ _ _ Hparam E1) as [Hchecks Hconf1].
  assert (Hin1 : net_inputs_ d1 = [in_blob (net_param param)]).
  { destruct Hconf1
      as (_ & _ & _ & _ & _ & _ & _ & _ & _ & _ & _ & _ & _ & -> & _).
    rewrite Hin. reflexivity. }
  assert (Hout1 : net_outputs_ d1
                  = out_blob (net_param param)
                    :: internal_blob_int8 (net_param param)).
  { destruct Hconf1
      as (_ & _ & _ & _ & _ & _ & _ & _ & _ & _ & _ & _ & _ & _ & -> & _).
    rewrite Hout. reflexivity. }
  split; [| split].
  - intros msg E2. apply Init_outcome in E2.
    rewrite Hparam, Hchecks in E2. exact E2.
  - intros net net' Hnet Hinit Hres_in Hres_out.
    destruct (Init_succeeds platform d1 options param
                (in_blob (net_param param)) net net'
                Hparam Hchecks Hnet) as (d2 & E2 & _); try assumption.
    + unfold input_names. rewrite Hin1. reflexivity.
    + exists d2. exact E2.
  - intros b d2 E2.
    destruct (Init_returned _ _ _ _ _ _ Hparam E2) as [_ Hconf2].
    destruct (Init_calls _ _ _ _ _ _ Hparam E1) as (n1 & Hn1 & Hcalls1).
    destruct (Init_calls _ _ _ _ _ _ Hparam E2) as (n2 & Hn2 & Hcalls2).
    unfold input_names in Hn1, Hn2. rewrite Hin in Hn1. rewrite Hin1 in Hn2.
    injection Hn1 as <-. injection Hn2 as <-.
    destruct Hconf1 as (_ & _ & Hh1 & Hw1 & Hoy1 & Hox1 & Hch1 & Hcw1 & Hs1
                        & Hrh1 & Hrw1 & Hm1 & Ho1 & _).
    destruct Hconf2 as (_ & _ & Hh2 & Hw2 & Hoy2 & Hox2 & Hch2 & Hcw2 & Hs2
                        & Hrh2 & Hrw2 & Hm2 & Ho2 & Hin2 & Hout2 & _).
    unfold resolved_geometry.
    rewrite Hh1, Hw1, Hoy1, Hox1, Hch1, Hcw1, Hs1, Hrh1, Hrw1, Hm1, Ho1.
    rewrite Hh2, Hw2, Hoy2, Hox2, Hch2, Hcw2, Hs2, Hrh2, Hrw2, Hm2, Ho2.
    rewrite Hin2, Hout2, Hin1, Hout1.
    do 7 (split; [reflexivity |]).
    intros shapes.
    rewrite <- (elem_of_calls (Call_net_Init shapes)
                  (events (Init platform d1 options)) eq_refl).
    rewrite <- (elem_of_calls (Call_net_Init shapes)
                  (events (Init platform this options)) eq_refl).
    rewrite Hcalls1, Hcalls2.
    split; intros Hs.
    all: repeat (apply elem_of_cons in Hs as [Hs | Hs];
                 [try discriminate Hs |]).
    all: try (injection Hs as ->; do 4 right; left).
    all: inversion Hs.
Qed.

Lemma Init_twice_witness :
  exists d2,
    outcome (Init (TestEngine.platform TestEngine.lane_param)
               TestEngine.lane_detector
               (TestEngine.options TestEngine.hd_camera)) = Done (true, d2)
    /\ resolved_geometry d2 = resolved_geometry TestEngine.lane_detector
    /\ net_outputs_ d2 !! 0%nat = Some "conv_out".
Proof.
  assert (E1 : outcome (Init (TestEngine.platform TestEngine.lane_param)
                          TestEngine.fresh
                          (TestEngine.options TestEngine.hd_camera))
               = Done (true, TestEngine.lane_detector))
    by (vm_compute; reflexivity).
  destruct (Init_twice (TestEngine.platform TestEngine.lane_param)
              TestEngine.fresh TestEngine.lane_detector
              (TestEngine.options TestEngine.hd_camera) TestEngine.lane_param
              (conj eq_refl (conj eq_refl eq_refl)) eq_refl E1)
    as (_ & Hsucceeds & Hsame).
  set (net := TestEngine.mk
                ["data"; "data"; "conv_out"; "conv_int8"; "conv_out"; "conv_int8"]
                ∅ true 0).
  set (net' := (net_Init {[ "data" := input_shape TestEngine.lane_param ]}
                  (net_set_gpu_id 0 net)).2).
  destruct (Hsucceeds net net') as [d2 E2]; [vm_compute; reflexivity .. |].
  exists d2. split; [exact E2 |].
  destruct (Hsame true d2 E2) as (Hgeo & _ & _ & _ & _ & _ & Hout & _).
  split; [exact Hgeo | exact Hout].
Defined.

(** ** The default native resolution *)

(** C10. When no camera model is supplied, the native resolution [Init]
    records is exactly 1920 wide and 1080 high; every later [Detect] that
    is given a frame reporting another size is terminated at the size
    test, so a [Detect] that returns for a frame was given a frame
    reporting 1920 x 1080. *)
Theorem Init_default_resolution {Net} `{!Inference Net}
    (platform : Platform Net) (this d : DenselineLaneDetector Net)
    (options : LaneDetectorInitOptions) :
  base_camera_model options = None ->
  outcome (Init platform this options) = Done (true, d) ->
  input_width_ d = 1920 /\ input_height_ d = 1080
  /\ forall d1, later d d1 ->
     forall opts fr provider,
       data_provider fr = Some provider ->
       (src_width provider <> 1920 \/ src_height provider <> 1080 ->
        Detect d1 opts (Some fr) = ([], Fatal "Input size is not correct: "))
       /\ (forall r d2 frame',
             outcome (Detect d1 opts (Some fr)) = Done (r, d2, frame') ->
             src_width provider = 1920 /\ src_height provider = 1080).
Proof.
  intros Hcam E. apply Init_outcome in E.
  destruct (loaded_param platform options) as [param |];
    [| destruct E as (leaves & _ & E); discriminate E].
  destruct (geometry_checks options param); [| destruct E; discriminate].
  destruct E as (_ & _ & Hh & Hw & _).
  unfold native_height, native_width in *. rewrite Hcam in *.
  split; [assumption |]. split; [assumption |].
  intros d1 Hlater opts fr provider Hprov.
  apply later_same_configuration in Hlater as (Hw1 & Hh1 & _).
  rewrite Hw in Hw1. rewrite Hh in Hh1. split.
  - intros Hsize. apply (Detect_size_mismatch d1 opts fr provider Hprov).
    rewrite Hw1, Hh1. destruct Hsize; [left | right]; congruence.
  - intros r d2 frame' E.
    apply Detect_Done in E as [(? & _) | E]; [discriminate |].
    destruct E as (fr' & provider' & image & net & input_name & input_blob
                   & output_name & [= <-] & Hprov' & Ew & Eh & _).
    rewrite Hprov in Hprov'. injection Hprov' as <-.
    split; congruence.
Qed.

Lemma Init_default_resolution_witness :
  let d := TestEngine.initialised TestEngine.lane_param
             (TestEngine.options None) in
  input_width_ d = 1920 /\ input_height_ d = 1080
  /\ Detect d mkLaneDetectorOptions (Some (TestEngine.frame 1280 720))
     = ([], Fatal "Input size is not correct: ")
  /\ exists d2 frame',
       outcome (Detect d mkLaneDetectorOptions
                  (Some (TestEngine.frame 1920 1080)))
       = Done (true, d2, frame').
Proof.
  cbn zeta.
  assert (E : outcome (Init (TestEngine.platform TestEngine.lane_param)
                         TestEngine.fresh (TestEngine.options None))
              = Done (true, TestEngine.initialised TestEngine.lane_param
                              (TestEngine.options None)))
    by (vm_compute; reflexivity).
  destruct (Init_default_resolution _ _ _ (TestEngine.options None) eq_refl E)
    as (Hw & Hh & Hlater).
  split; [exact Hw |]. split; [exact Hh |]. split.
  - refine (proj1 (Hlater _ (later_now _) mkLaneDetectorOptions
                     (TestEngine.frame 1280 720) _ eq_refl) _).
    left. discriminate.
  - do 2 eexists. vm_compute. reflexivity.
Defined.

(** * Further properties of the member functions *)

(** ** [Init]: the ways it fails *)

(** X1. When the configuration cannot be read, [Init] reads it, logs one
    line and returns [false].  The parser was handed a pointer to
    [denseline_param_]: the member holds what the parser left in it.
    Every other member is as it was, and no other collaborator (device,
    engine factory, engine) is called. *)
Theorem Init_unreadable_configuration {Net} `{!Inference Net}
    (platform : Platform Net) (this : DenselineLaneDetector Net)
    (options : LaneDetectorInitOptions)
    (leaves : option DenselineParam -> option DenselineParam) :
  GetProtoFromFile platform
    (GetAbsolutePath platform (root_dir options) (conf_file options))
  = ParseFailed leaves ->
  Init platform this options
  = ([Call_GetProtoFromFile
        (GetAbsolutePath platform (root_dir options) (conf_file options));
      Log SevINFO ("load proto param failed, root dir: " +:+ root_dir options)],
     Done (false, set_denseline_param_ (leaves (denseline_param_ this)) this)).
Proof.
  intros Hparam.
  rewrite (run_eta (Init _ _ _)). unfold Init. run.
  rewrite Hparam. run. reflexivity.
Qed.

(** The detector of the example and a parser that fails and leaves the
    message empty: the configuration the detector held is gone, the
    engine and the geometry are as they were. *)
Lemma Init_unreadable_configuration_witness :
  exists d,
    outcome (Init Scenarios.unreadable TestEngine.lane_detector
               (TestEngine.options TestEngine.hd_camera))
    = Done (false, d)
    /\ denseline_param_ TestEngine.lane_detector = Some TestEngine.lane_param
    /\ denseline_param_ d = None
    /\ rt_net_ d = rt_net_ TestEngine.lane_detector
    /\ resolved_geometry d = resolved_geometry TestEngine.lane_detector.
Proof.
  rewrite (Init_unreadable_configuration Scenarios.unreadable
             TestEngine.lane_detector
             (TestEngine.options TestEngine.hd_camera) (fun _ => None)
             eq_refl).
  eexists. split; [reflexivity |].
  split; [vm_compute; reflexivity |]. repeat split.
Defined.

(** X2. When one of the four tests on the native size and the crop size
    fails, [Init] is terminated with the message of the first one that
    fails (native width, native height, crop height, crop width, in this
    order), and the only collaborator call it has made is the reading of
    the configuration: the device is not queried and no engine is
    created. *)
Theorem Init_fails_before_engine {Net} `{!Inference Net}
    (platform : Platform Net) (this : DenselineLaneDetector Net)
    (options : LaneDetectorInitOptions) (param : DenselineParam)
    (msg : string) :
  loaded_param platform options = Some param ->
  native_and_crop_failure options param = Some msg ->
  outcome (Init platform this options) = Fatal msg
  /\ calls (events (Init platform this options))
     = [Call_GetProtoFromFile
          (GetAbsolutePath platform (root_dir options) (conf_file options))].
Proof.
  intros Hparam Hfail.
  destruct (Init_decisions platform this options param Hparam)
    as (input_name & _ & Hrun).
  rewrite Hfail in Hrun. exact Hrun.
Qed.

Lemma Init_fails_before_engine_witness :
  outcome (Init (TestEngine.platform (TestEngine.param 0 0 2000 1200 (1 # 2) []))
             TestEngine.fresh (TestEngine.options TestEngine.hd_camera))
  = Fatal "crop height larger than input height"
  /\ outcome (Init (TestEngine.platform TestEngine.lane_param)
                TestEngine.fresh
                (TestEngine.options (Some (TestEngine.camera 0 0))))
     = Fatal "input width should be more than 0".
Proof.
  split.
  - exact (proj1 (Init_fails_before_engine
                    (TestEngine.platform
                       (TestEngine.param 0 0 2000 1200 (1 # 2) []))
                    TestEngine.fresh (TestEngine.options TestEngine.hd_camera)
                    (TestEngine.param 0 0 2000 1200 (1 # 2) []) _
                    eq_refl eq_refl)).
  - exact (proj1 (Init_fails_before_engine
                    (TestEngine.platform TestEngine.lane_param)
                    TestEngine.fresh
                    (TestEngine.options (Some (TestEngine.camera 0 0)))
                    TestEngine.lane_param _ eq_refl eq_refl)).
Defined.

(** X3. When the factory yields no engine, [Init] is terminated at
    [CHECK(rt_net_ != nullptr)]: it has read the configuration, queried the
    device and called the factory with the accumulated tensor names, and
    nothing more. *)
Theorem Init_without_engine {Net} `{!Inference Net}
    (platform : Platform Net) (this : DenselineLaneDetector Net)
    (options : LaneDetectorInitOptions) (param : DenselineParam) :
  loaded_param platform options = Some param ->
  native_and_crop_failure options param = None ->
  created_engine platform this options param = None ->
  outcome (Init platform this options)
  = Fatal "Check failed: rt_net_ != nullptr"
  /\ calls (events (Init platform this options))
     = [ Call_GetProtoFromFile
           (GetAbsolutePath platform (root_dir options) (conf_file options));
         Call_cudaGetDeviceProperties (gpu_id options);
         Call_CreateInferenceByName (model_type (model_param param))
           (GetAbsolutePath platform (model_root platform options param)
              (proto_file (model_param param)))
           (GetAbsolutePath platform (model_root platform options param)
              (weight_file (model_param param)))
           (output_names this param) (input_names this param)
           (model_root platform options param) ].
Proof.
  intros Hparam Hpass Hnet.
  destruct (Init_decisions platform this options param Hparam)
    as (input_name & _ & Hrun).
  rewrite Hpass, Hnet in Hrun. exact Hrun.
Qed.

Lemma Init_without_engine_witness :
  outcome (Init (Scenarios.no_engine TestEngine.lane_param) TestEngine.fresh
             (TestEngine.options TestEngine.hd_camera))
  = Fatal "Check failed: rt_net_ != nullptr".
Proof.
  exact (proj1 (Init_without_engine
                  (Scenarios.no_engine TestEngine.lane_param) TestEngine.fresh
                  (TestEngine.options TestEngine.hd_camera)
                  TestEngine.lane_param eq_refl eq_refl eq_refl)).
Defined.

(** X4. The two tests on the resized size come after the engine: when the
    resize width or height is not positive, [Init] is terminated with the
    message of the first of the two that fails (width, then height), after
    it has created the engine and bound it to the device; the engine is
    not initialised. *)
Theorem Init_resize_failure_after_engine {Net} `{!Inference Net}
    (platform : Platform Net) (this : DenselineLaneDetector Net)
    (options : LaneDetectorInitOptions) (param : DenselineParam)
    (net : Net) (msg : string) :
  loaded_param platform options = Some param ->
  native_and_crop_failure options param = None ->
  created_engine platform this options param = Some net ->
  resize_failure param = Some msg ->
  outcome (Init platform this options) = Fatal msg
  /\ calls (events (Init platform this options))
     = [ Call_GetProtoFromFile
           (GetAbsolutePath platform (root_dir options) (conf_file options));
         Call_cudaGetDeviceProperties (gpu_id options);
         Call_CreateInferenceByName (model_type (model_param param))
           (GetAbsolutePath platform (model_root platform options param)
              (proto_file (model_param param)))
           (GetAbsolutePath platform (model_root platform options param)
              (weight_file (model_param param)))
           (output_names this param) (input_names this param)
           (model_root platform options param);
         Call_set_gpu_id (gpu_id options) ].
Proof.
  intros Hparam Hpass Hnet Hresize.
  destruct (Init_decisions platform this options param Hparam)
    as (input_name & _ & Hrun).
  rewrite Hpass, Hnet, Hresize in Hrun. exact Hrun.
Qed.

Lemma Init_resize_failure_after_engine_witness :
  outcome (Init (TestEngine.platform (TestEngine.param 0 0 3 480 (1 # 4) []))
             TestEngine.fresh (TestEngine.options TestEngine.hd_camera))
  = Fatal "resize width should be more than 0"
  /\ Call_set_gpu_id 0
     ∈ calls (events (Init (TestEngine.platform
                              (TestEngine.param 0 0 3 480 (1 # 4) []))
                        TestEngine.fresh
                        (TestEngine.options TestEngine.hd_camera))).
Proof.
  destruct (Init_resize_failure_after_engine
              (TestEngine.platform (TestEngine.param 0 0 3 480 (1 # 4) []))
              TestEngine.fresh (TestEngine.options TestEngine.hd_camera)
              (TestEngine.param 0 0 3 480 (1 # 4) []) _ _
              eq_refl eq_refl eq_refl eq_refl) as [Hout Hcalls].
  split; [exact Hout |]. rewrite Hcalls. do 3 right. left.
Defined.

(** X5. When the engine refuses its initialisation, [Init] logs
    ["net init fail."] and returns [false], but the object is not left as
    it was: every member is assigned, the tensor names are appended and the
    refused engine is kept in [rt_net_]. *)
Theorem Init_engine_refuses {Net} `{!Inference Net}
    (platform : Platform Net) (this : DenselineLaneDetector Net)
    (options : LaneDetectorInitOptions) (param : DenselineParam)
    (input_name : string) (net net' : Net) :
  loaded_param platform options = Some param ->
  geometry_checks options param = true ->
  created_engine platform this options param = Some net ->
  input_names this param !! 0%nat = Some input_name ->
  net_Init {[ input_name := input_shape param ]}
    (net_set_gpu_id (gpu_id options) net) = (false, net') ->
  exists d,
    outcome (Init platform this options) = Done (false, d)
    /\ rt_net_ d = Some net'
    /\ configured this options param d
    /\ Log SevINFO "net init fail." ∈ events (Init platform this options).
Proof.
  intros Hparam Hchecks Hnet Hname Hinit.
  apply geometry_checks_split in Hchecks as [Hpass Hresize].
  destruct (Init_decisions platform this options param Hparam)
    as (input_name' & Hname' & Hrun).
  rewrite Hname in Hname'. injection Hname' as <-.
  rewrite Hpass, Hnet, Hresize, Hinit in Hrun.
  destruct Hrun as (_ & d & E & Hrt & Hlog).
  exists d. split; [exact E |]. split; [exact Hrt |].
  split; [| exact Hlog].
  apply (Init_returned _ _ _ _ _ _ Hparam E).
Qed.

Lemma Init_engine_refuses_witness :
  exists d,
    outcome (Init (Scenarios.refusing TestEngine.lane_param) TestEngine.fresh
               (TestEngine.options TestEngine.hd_camera)) = Done (false, d)
    /\ net_inputs_ d = ["data"]
    /\ resize_width_ d = 960.
Proof.
  edestruct (Init_engine_refuses (Scenarios.refusing TestEngine.lane_param)
               TestEngine.fresh (TestEngine.options TestEngine.hd_camera)
               TestEngine.lane_param "data"
               (TestEngine.mk ["data"; "conv_out"; "conv_int8"] ∅ false 0)
               (net_Init {[ "data" := input_shape TestEngine.lane_param ]}
                  (TestEngine.mk ["data"; "conv_out"; "conv_int8"] ∅ false 0)).2)
    as (d & E & _ & Hconf & _).
  1-5: vm_compute; reflexivity.
  exists d. split; [exact E |].
  destruct Hconf as (_ & _ & _ & _ & _ & _ & _ & _ & _ & _ & Hrw & _ & _
                     & Hin & _).
  split; [exact Hin | exact Hrw].
Defined.

(** X6. With the configuration read, [Init] returns [true] exactly when
    the six geometry tests pass on the values the members hold (sizes
    modulo 2^16, the resized size from the single-precision product),
    the factory yields an engine, the engine
    accepts the shape bound to the first input name, and the engine knows
    every input and output tensor name; the detector then holds the engine
    as [Init] of the engine left it. *)
Theorem Init_returns_true_iff {Net} `{!Inference Net}
    (platform : Platform Net) (this : DenselineLaneDetector Net)
    (options : LaneDetectorInitOptions) (param : DenselineParam) :
  loaded_param platform options = Some param ->
  (exists d, outcome (Init platform this options) = Done (true, d))
  <-> (geometry_checks options param = true
       /\ exists net input_name net',
            created_engine platform this options param = Some net
            /\ input_names this param !! 0%nat = Some input_name
            /\ net_Init {[ input_name := input_shape param ]}
                 (net_set_gpu_id (gpu_id options) net) = (true, net')
            /\ resolves (fun name => net_get_blob name net')
                 (input_names this param) = true
            /\ resolves (fun name => net_get_blob name net')
                 (output_names this param) = true).
Proof.
  intros Hparam. split.
  - intros [d E].
    destruct (Init_returned _ _ _ _ _ _ Hparam E) as [Hchecks _].
    split; [exact Hchecks |].
    apply geometry_checks_split in Hchecks as [Hpass Hresize].
    destruct (Init_decisions platform this options param Hparam)
      as (input_name & Hname & Hrun).
    rewrite Hpass, Hresize in Hrun.
    destruct (created_engine platform this options param) as [net |];
      [| destruct Hrun as [Hrun _]; congruence].
    destruct (net_Init _ _) as [ok net'] eqn:Hinit.
    destruct Hrun as [_ Hrun].
    destruct ok; [| destruct Hrun as (d' & E' & _); congruence].
    destruct (resolves _ (input_names this param)) eqn:Hin; [| congruence].
    destruct (resolves _ (output_names this param)) eqn:Hout; [| congruence].
    exists net, input_name, net'. auto.
  - intros (Hchecks & net & input_name & net' & Hnet & Hname & Hinit
            & Hin & Hout).
    destruct (Init_succeeds platform this options param input_name net net'
                Hparam Hchecks Hnet Hname Hinit Hin Hout) as (d & E & _).
    exists d. exact E.
Qed.

(** The example of the specification is accepted; so is the crop width
    65636 with the native width 1920, which the member holds as 100. *)
Lemma Init_returns_true_iff_witness :
  (exists d,
     outcome (Init (TestEngine.platform TestEngine.lane_param) TestEngine.fresh
                (TestEngine.options TestEngine.hd_camera)) = Done (true, d))
  /\ exists d,
       outcome (Init (TestEngine.platform
                        (TestEngine.param 0 300 65636 480 (1 # 2) []))
                  TestEngine.fresh (TestEngine.options TestEngine.hd_camera))
       = Done (true, d)
       /\ crop_width_ d = 100 /\ resize_width_ d = 50.
Proof.
  split.
  - apply (Init_returns_true_iff (TestEngine.platform TestEngine.lane_param)
             TestEngine.fresh (TestEngine.options TestEngine.hd_camera)
             TestEngine.lane_param eq_refl).
    split; [vm_compute; reflexivity |].
    exists (TestEngine.mk ["data"; "conv_out"; "conv_int8"] ∅ true 0), "data",
      (net_Init {[ "data" := input_shape TestEngine.lane_param ]}
         (TestEngine.mk ["data"; "conv_out"; "conv_int8"] ∅ true 0)).2.
    repeat split; vm_compute; reflexivity.
  - destruct (proj2 (Init_returns_true_iff
                       (TestEngine.platform
                          (TestEngine.param 0 300 65636 480 (1 # 2) []))
                       TestEngine.fresh
                       (TestEngine.options TestEngine.hd_camera)
                       (TestEngine.param 0 300 65636 480 (1 # 2) []) eq_refl))
      as [d E].
    + split; [vm_compute; reflexivity |].
      exists (TestEngine.mk ["data"; "conv_out"] ∅ true 0), "data",
        (net_Init
           {[ "data" := input_shape
                          (TestEngine.param 0 300 65636 480 (1 # 2) []) ]}
           (TestEngine.mk ["data"; "conv_out"] ∅ true 0)).2.
      repeat split; vm_compute; reflexivity.
    + exists d. split; [exact E |].
      vm_compute in E. injection E as <-. split; reflexivity.
Defined.

(** X7. When the engine accepted the shape but does not know one of the
    configured input or output tensor names, [Init] does not return: the
    blob pointer it gets for that name is null and is dereferenced for the
    log line (a crash in this model). *)
Theorem Init_unknown_tensor {Net} `{!Inference Net}
    (platform : Platform Net) (this : DenselineLaneDetector Net)
    (options : LaneDetectorInitOptions) (param : DenselineParam)
    (input_name : string) (net net' : Net) :
  loaded_param platform options = Some param ->
  geometry_checks options param = true ->
  created_engine platform this options param = Some net ->
  input_names this param !! 0%nat = Some input_name ->
  net_Init {[ input_name := input_shape param ]}
    (net_set_gpu_id (gpu_id options) net) = (true, net') ->
  resolves (fun name => net_get_blob name net') (input_names this param)
    = false
  \/ resolves (fun name => net_get_blob name net') (output_names this param)
     = false ->
  outcome (Init platform this options) = Crash.
Proof.
  intros Hparam Hchecks Hnet Hname Hinit Hmissing.
  apply geometry_checks_split in Hchecks as [Hpass Hresize].
  destruct (Init_decisions platform this options param Hparam)
    as (input_name' & Hname' & Hrun).
  rewrite Hname in Hname'. injection Hname' as <-.
  rewrite Hpass, Hnet, Hresize, Hinit in Hrun.
  destruct Hrun as [_ Hrun].
  destruct (resolves _ (input_names this param)); [| exact Hrun].
  destruct Hmissing as [Hmissing | Hmissing]; [discriminate |].
  rewrite Hmissing in Hrun. exact Hrun.
Qed.

Lemma Init_unknown_tensor_witness :
  outcome (Init (Scenarios.inputs_only TestEngine.lane_param) TestEngine.fresh
             (TestEngine.options TestEngine.hd_camera)) = Crash.
Proof.
  eapply (Init_unknown_tensor (Scenarios.inputs_only TestEngine.lane_param)
            TestEngine.fresh (TestEngine.options TestEngine.hd_camera)
            TestEngine.lane_param "data"
            (TestEngine.mk ["data"] ∅ true 0)
            (net_Init {[ "data" := input_shape TestEngine.lane_param ]}
               (TestEngine.mk ["data"] ∅ true 0)).2).
  1-5: vm_compute; reflexivity.
  right. vm_compute. reflexivity.
Defined.

(** ** [Init]: what it leaves *)

(** X8. [Init] reads, of the object it is called on, only the two vectors
    of tensor names and the image: two objects that agree on these get the
    same run, whatever the other members held before. *)
Theorem Init_overwrites_scalars {Net} `{!Inference Net}
    (platform : Platform Net) (this this' : DenselineLaneDetector Net)
    (options : LaneDetectorInitOptions) :
  loaded_param platform options <> None ->
  net_inputs_ this = net_inputs_ this' ->
  net_outputs_ this = net_outputs_ this' ->
  image_src_ this = image_src_ this' ->
  Init platform this options = Init platform this' options.
Proof.
  unfold loaded_param. intros Hparam Hin Hout Himg.
  unfold Init. rewrite Hin, Hout, Himg.
  destruct (GetProtoFromFile platform _); [reflexivity | congruence].
Qed.

Lemma Init_overwrites_scalars_witness :
  Init (TestEngine.platform TestEngine.lane_param) TestEngine.fresh
    (TestEngine.options TestEngine.hd_camera)
  = Init (TestEngine.platform TestEngine.lane_param) Scenarios.stale
      (TestEngine.options TestEngine.hd_camera).
Proof.
  apply Init_overwrites_scalars; [discriminate | reflexivity ..].
Defined.

(** X9. [Init] keeps the tensor names the object already holds in front
    of the configured ones.  On an object that holds names, the shape is
    therefore bound to the old first input name, not to the configured
    [in_blob], and the first output name stays the old one. *)
Theorem Init_keeps_first_names {Net} `{!Inference Net}
    (platform : Platform Net) (this d : DenselineLaneDetector Net)
    (options : LaneDetectorInitOptions) (param : DenselineParam)
    (b : bool) (old_input old_output : string) :
  loaded_param platform options = Some param ->
  net_inputs_ this !! 0%nat = Some old_input ->
  net_outputs_ this !! 0%nat = Some old_output ->
  outcome (Init platform this options) = Done (b, d) ->
  net_inputs_ d = net_inputs_ this ++ [in_blob (net_param param)]
  /\ net_outputs_ d
     = net_outputs_ this ++ out_blob (net_param param)
                            :: internal_blob_int8 (net_param param)
  /\ net_inputs_ d !! 0%nat = Some old_input
  /\ net_outputs_ d !! 0%nat = Some old_output
  /\ forall shapes,
       Call_net_Init shapes ∈ events (Init platform this options) <->
       shapes = {[ old_input := input_shape param ]}.
Proof.
  intros Hparam Hin Hout E.
  destruct (Init_returned _ _ _ _ _ _ Hparam E) as [_ Hconf].
  destruct Hconf
    as (_ & _ & _ & _ & _ & _ & _ & _ & _ & _ & _ & _ & _ & Hin' & Hout' & _).
  destruct (Init_calls _ _ _ _ _ _ Hparam E) as (name & Hname & Hcalls).
  unfold input_names in Hname.
  rewrite (lookup_app_l_Some _ _ _ _ Hin) in Hname. injection Hname as <-.
  rewrite Hin', Hout', <- app_assoc.
  split; [reflexivity |]. split; [reflexivity |].
  split; [apply lookup_app_l_Some; exact Hin |].
  split; [apply lookup_app_l_Some; exact Hout |].
  intros shapes.
  rewrite <- (elem_of_calls (Call_net_Init shapes) _ eq_refl), Hcalls.
  split.
  - intros Hs.
    repeat (apply elem_of_cons in Hs as [Hs | Hs]; [try discriminate Hs |]).
    + injection Hs as ->. reflexivity.
    + inversion Hs.
  - intros ->. do 4 right. left.
Qed.

Lemma Init_keeps_first_names_witness :
  exists d,
    outcome (Init (TestEngine.platform
                     (Scenarios.renamed "image" "lanes" TestEngine.lane_param))
               TestEngine.lane_detector
               (TestEngine.options TestEngine.hd_camera)) = Done (true, d)
    /\ net_inputs_ d = ["data"; "image"]
    /\ net_outputs_ d !! 0%nat = Some "conv_out".
Proof.
  assert (E : exists d,
             outcome (Init (TestEngine.platform
                              (Scenarios.renamed "image" "lanes"
                                 TestEngine.lane_param))
                        TestEngine.lane_detector
                        (TestEngine.options TestEngine.hd_camera))
             = Done (true, d))
    by (eexists; vm_compute; reflexivity).
  destruct E as [d E]. exists d. split; [exact E |].
  destruct (Init_keeps_first_names
              (TestEngine.platform
                 (Scenarios.renamed "image" "lanes" TestEngine.lane_param))
              TestEngine.lane_detector d
              (TestEngine.options TestEngine.hd_camera)
              (Scenarios.renamed "image" "lanes" TestEngine.lane_param)
              true "data" "conv_out" eq_refl eq_refl eq_refl E)
    as (Hin & _ & _ & Hout & _).
  split; [exact Hin | exact Hout].
Defined.

(** ** [Init]: the resized size *)

(** A zero crop size or a zero scale gives a zero resized size. *)
Lemma binary32_zero (q : Q) : Qnum q = 0 -> binary32 q = 0%Q.
Proof. unfold binary32. intros ->. reflexivity. Qed.

Lemma scaled_size_zero (z : Z) (q : Q) :
  z = 0 \/ Qnum q = 0 -> scaled_size (uint16_t z) (binary32 q) = 0.
Proof.
  unfold scaled_size, float_mul. intros Hzero.
  rewrite (binary32_zero (_ * _)%Q); [reflexivity |].
  destruct Hzero as [-> | Hq].
  - reflexivity.
  - rewrite (binary32_zero q Hq). cbn. apply Z.mul_0_r.
Qed.

(** X10. An empty crop region or a zero scale is refused: when the crop
    width or the crop height is 0, or the scale is 0, [Init] is terminated
    by a failed CHECK. *)
Theorem Init_refuses_empty_crop {Net} `{!Inference Net}
    (platform : Platform Net) (this : DenselineLaneDetector Net)
    (options : LaneDetectorInitOptions) (param : DenselineParam) :
  loaded_param platform options = Some param ->
  crop_width (model_param param) = 0
  \/ crop_height (model_param param) = 0
  \/ (resize_scale (model_param param) == 0)%Q ->
  exists msg, outcome (Init platform this options) = Fatal msg.
Proof.
  intros Hparam Hzero. apply (Init_geometry_rejected _ _ _ param Hparam).
  apply not_true_is_false. rewrite geometry_checks_true.
  intros (_ & _ & _ & _ & Hw & Hh).
  assert (Hscale : (resize_scale (model_param param) == 0)%Q
                   -> Qnum (resize_scale (model_param param)) = 0).
  { unfold Qeq. cbn. lia. }
  unfold resized_width, resized_height, stored_crop_width,
    stored_crop_height, stored_scale in Hw, Hh.
  destruct Hzero as [Hz | [Hz | Hz]].
  - rewrite scaled_size_zero in Hw by auto. lia.
  - rewrite scaled_size_zero in Hh by auto. lia.
  - rewrite scaled_size_zero in Hw by auto. lia.
Qed.

Lemma Init_refuses_empty_crop_witness :
  exists msg,
    outcome (Init (TestEngine.platform (TestEngine.param 0 300 1920 0 (1 # 2) []))
               TestEngine.fresh (TestEngine.options TestEngine.hd_camera))
    = Fatal msg.
Proof.
  apply (Init_refuses_empty_crop
           (TestEngine.platform (TestEngine.param 0 300 1920 0 (1 # 2) []))
           TestEngine.fresh (TestEngine.options TestEngine.hd_camera)
           (TestEngine.param 0 300 1920 0 (1 # 2) []) eq_refl).
  right. left. reflexivity.
Defined.

(** ** [Init]: the width of the members *)

(** X19. [Init] narrows without a test: whenever it returns, the offsets,
    the crop size and the native size its members hold, and the crop
    region it hands to the data provider, are the configured and reported
    values modulo 2^16, and every size member is from 0 to 65535.  A
    configured value of 2^16 or more is not refused; it is held as its
    remainder. *)
Theorem Init_narrows_sizes {Net} `{!Inference Net}
    (platform : Platform Net) (this d : DenselineLaneDetector Net)
    (options : LaneDetectorInitOptions) (param : DenselineParam) (b : bool) :
  loaded_param platform options = Some param ->
  outcome (Init platform this options) = Done (b, d) ->
  let mp := model_param param in
  input_offset_x_ d = input_offset_x mp mod 65536
  /\ input_offset_y_ d = input_offset_y mp mod 65536
  /\ crop_width_ d = crop_width mp mod 65536
  /\ crop_height_ d = crop_height mp mod 65536
  /\ (forall camera,
        base_camera_model options = Some camera ->
        input_width_ d = get_width camera mod 65536
        /\ input_height_ d = get_height camera mod 65536)
  /\ crop_roi (data_provider_image_option_ d)
     = RectI.mk (input_offset_x mp mod 65536) (input_offset_y mp mod 65536)
         (crop_width mp mod 65536) (crop_height mp mod 65536)
  /\ Forall (fun member => 0 <= member < 65536)
       [input_width_ d; input_height_ d; input_offset_x_ d; input_offset_y_ d;
        crop_width_ d; crop_height_ d; resize_width_ d; resize_height_ d].
Proof.
  intros Hparam E mp.
  destruct (Init_returned _ _ _ _ _ _ Hparam E) as [Hchecks Hconf].
  apply geometry_checks_true in Hchecks
    as (Hw & Hh & Hch & Hcw & Hrw & Hrh).
  destruct Hconf
    as (_ & _ & Eh & Ew & -> & -> & Ech & Ecw & _ & Erh & Erw & _ & -> & _).
  pose proof (uint16_t_range (crop_height mp)) as Rch.
  pose proof (uint16_t_range (crop_width mp)) as Rcw.
  pose proof (uint16_t_range (input_offset_x mp)) as Rx.
  pose proof (uint16_t_range (input_offset_y mp)) as Ry.
  assert (Rw : 0 <= native_width options < 65536).
  { unfold native_width. destruct (base_camera_model options);
      [apply uint16_t_range | lia]. }
  assert (Rh : 0 <= native_height options < 65536).
  { unfold native_height. destruct (base_camera_model options);
      [apply uint16_t_range | lia]. }
  assert (Rrw : 0 <= resized_width param < 65536)
    by apply scaled_size_range.
  assert (Rrh : 0 <= resized_height param < 65536)
    by apply scaled_size_range.
  rewrite Ech, Ecw, Eh, Ew, Erh, Erw.
  unfold stored_offset_x, stored_offset_y, stored_crop_width,
    stored_crop_height in *. fold mp.
  do 4 (split; [reflexivity |]). split; [| split; [reflexivity |]].
  - intros camera Hcam. unfold native_width, native_height.
    rewrite Hcam. split; reflexivity.
  - repeat constructor; assumption || lia.
Qed.

(** The crop width 65636 with the native width 1920: [Init] returns
    [true] and holds, and hands to the data provider, the crop width
    100. *)
Lemma Init_narrows_sizes_witness :
  exists d,
    outcome (Init (TestEngine.platform
                     (TestEngine.param 0 300 65636 480 (1 # 2) []))
               TestEngine.fresh (TestEngine.options TestEngine.hd_camera))
    = Done (true, d)
    /\ crop_width_ d = 100
    /\ crop_roi (data_provider_image_option_ d) = RectI.mk 0 300 100 480.
Proof.
  assert (E : exists d,
             outcome (Init (TestEngine.platform
                              (TestEngine.param 0 300 65636 480 (1 # 2) []))
                        TestEngine.fresh
                        (TestEngine.options TestEngine.hd_camera))
             = Done (true, d))
    by (eexists; vm_compute; reflexivity).
  destruct E as [d E]. exists d. split; [exact E |].
  destruct (Init_narrows_sizes
              (TestEngine.platform
                 (TestEngine.param 0 300 65636 480 (1 # 2) []))
              TestEngine.fresh d (TestEngine.options TestEngine.hd_camera)
              (TestEngine.param 0 300 65636 480 (1 # 2) []) true eq_refl E)
    as (_ & _ & Hcw & _ & _ & Hroi & _).
  split; [rewrite Hcw | rewrite Hroi]; reflexivity.
Defined.

(** ** [Detect] *)

(** [Detect] assigns the image and the engine only. *)
Lemma Detect_kept {Net} `{!Inference Net}
    (this d : DenselineLaneDetector Net) options frame r frame' :
  outcome (Detect this options frame) = Done (r, d, frame') ->
  kept_members d = kept_members this.
Proof.
  intros E. apply Detect_Done in E as [(_ & _ & -> & _) | E].
  - reflexivity.
  - destruct E as (fr & provider & image & net & input_name & input_blob
                   & output_name & E).
    destruct E as (_ & _ & _ & _ & _ & _ & _ & _ & _ & _ & _ & _ & -> & _).
    reflexivity.
Qed.

Lemma later_kept {Net} `{!Inference Net} (d d' : DenselineLaneDetector Net) :
  later d d' -> kept_members d' = kept_members d.
Proof.
  induction 1 as [| d1 options frame r d2 frame' _ IH E | d1 net _ IH].
  - reflexivity.
  - rewrite (Detect_kept _ _ _ _ _ _ E). exact IH.
  - exact IH.
Qed.

(** X12. A [Detect] that returns [true] has made exactly four collaborator
    calls, in this order: [GetImage] with the image options of the
    detector, [ResizeGPU] from the image obtained into the tensor bound to
    the first input name, with the crop width and the three mean values of
    the detector, [cudaDeviceSynchronize], and [Infer]. *)
Theorem Detect_calls_in_order {Net} `{!Inference Net}
    (this d : DenselineLaneDetector Net) (options : LaneDetectorOptions)
    (frame frame' : option CameraFrame) :
  outcome (Detect this options frame) = Done (true, d, frame') ->
  exists fr provider image net input_name input_blob,
    frame = Some fr
    /\ data_provider fr = Some provider
    /\ GetImage provider (data_provider_image_option_ this) = Some image
    /\ rt_net_ this = Some net
    /\ net_inputs_ this !! 0%nat = Some input_name
    /\ net_get_blob input_name net = Some input_blob
    /\ calls (events (Detect this options frame))
       = [ Call_GetImage (data_provider_image_option_ this);
           Call_ResizeGPU image input_blob (crop_width_ this) 0
             (image_mean_ this).1.1 (image_mean_ this).1.2
             (image_mean_ this).2 false 1%Q;
           Call_cudaDeviceSynchronize;
           Call_Infer ].
Proof.
  intros E. apply Detect_Done in E as [(_ & [=] & _) | E].
  destruct E as (fr & provider & image & net & input_name & input_blob
                 & output_name & -> & Hprov & Hw & Hh & Himg & Hnet & Hname
                 & Hblob & Eh & Ew & Hout & _).
  exists fr, provider, image, net, input_name, input_blob.
  repeat (split; [assumption || reflexivity |]).
  rewrite (Detect_succeeds this options fr provider image net input_name
             input_blob output_name) by assumption.
  reflexivity.
Qed.

Lemma Detect_calls_in_order_witness :
  calls (events (Detect TestEngine.lane_detector mkLaneDetectorOptions
                   (Some (TestEngine.frame 1920 1080))))
  = [ Call_GetImage
        {| target_color := BGR; do_crop := true;
           crop_roi := RectI.mk 0 300 1920 480 |};
      Call_ResizeGPU {| image_id := 7 |}
        {| blob_id := 0; channels := 3; height := 240; width := 960 |}
        1920 0 95 99 96 false 1%Q;
      Call_cudaDeviceSynchronize;
      Call_Infer ].
Proof.
  destruct (outcome (Detect TestEngine.lane_detector mkLaneDetectorOptions
                       (Some (TestEngine.frame 1920 1080))))
    as [[[r d] frame'] | msg |] eqn:E;
    try (vm_compute in E; discriminate E).
  assert (r = true) as -> by (vm_compute in E; congruence).
  destruct (Detect_calls_in_order _ _ _ _ _ E)
    as (fr & provider & image & net & input_name & input_blob & [= <-]
        & [= <-] & [= <-] & Hnet & Hname & Hblob & Hcalls).
  rewrite Hcalls. vm_compute in Hnet. injection Hnet as <-.
  vm_compute in Hname. injection Hname as <-.
  vm_compute in Hblob. injection Hblob as <-. vm_compute. reflexivity.
Defined.

(** X13. [Detect] returns [false] only for a null frame: given a frame,
    every [Detect] that returns has returned [true] and hands the frame
    back; every failure on a frame ends the run instead. *)
Theorem Detect_false_only_without_frame {Net} `{!Inference Net}
    (this d : DenselineLaneDetector Net) (options : LaneDetectorOptions)
    (frame frame' : option CameraFrame) (r : bool) :
  outcome (Detect this options frame) = Done (r, d, frame') ->
  (r = false <-> frame = None)
  /\ (r = true <-> exists fr, frame = Some fr)
  /\ (frame' = None <-> frame = None).
Proof.
  intros E. apply Detect_Done in E as [(-> & -> & _ & ->) | E].
  - repeat split; try reflexivity; try discriminate.
    intros [fr [=]].
  - destruct E as (fr & provider & image & net & input_name & input_blob
                   & output_name & -> & E).
    destruct E as (_ & _ & _ & _ & _ & _ & _ & _ & _ & _ & -> & _ & ->).
    repeat split; try discriminate; eauto.
Qed.

Lemma Detect_false_only_without_frame_witness :
  exists r d frame',
    outcome (Detect TestEngine.lane_detector mkLaneDetectorOptions
               (Some (TestEngine.frame 1920 1080))) = Done (r, d, frame')
    /\ r = true /\ frame' <> None.
Proof.
  destruct (outcome (Detect TestEngine.lane_detector mkLaneDetectorOptions
                       (Some (TestEngine.frame 1920 1080))))
    as [[[r d] frame'] | msg |] eqn:E;
    try (vm_compute in E; discriminate E).
  exists r, d, frame'. split; [reflexivity |].
  destruct (Detect_false_only_without_frame _ _ _ _ _ _ E)
    as (_ & Htrue & Hnone).
  split.
  - apply Htrue. eauto.
  - intros Hf. apply Hnone in Hf. discriminate Hf.
Defined.

(** X14. [Detect] assigns two members of the detector, the image and the
    engine; whenever it returns, every other member (camera model,
    configuration, native size, offsets, crop and resize size, mean
    values, scale, image options, tensor names) is as before, and of the
    frame only [lane_detected_blob] may have changed.  With no frame the
    detector is left as it was. *)
Theorem Detect_keeps_members {Net} `{!Inference Net}
    (this d : DenselineLaneDetector Net) (options : LaneDetectorOptions)
    (frame frame' : option CameraFrame) (r : bool) :
  outcome (Detect this options frame) = Done (r, d, frame') ->
  kept_members d = kept_members this
  /\ (frame = None -> d = this /\ frame' = None)
  /\ (forall fr, frame = Some fr ->
      exists fr' image net,
        frame' = Some fr'
        /\ data_provider fr' = data_provider fr
        /\ rt_net_ this = Some net
        /\ rt_net_ d = Some (net_Infer net)
        /\ image_src_ d = Some image).
Proof.
  intros E. split; [exact (Detect_kept _ _ _ _ _ _ E) |].
  apply Detect_Done in E as [(-> & _ & -> & ->) | E].
  - split; [auto |]. intros fr [=].
  - destruct E as (fr & provider & image & net & input_name & input_blob
                   & output_name & -> & E).
    destruct E as (_ & _ & _ & _ & Hnet & _ & _ & _ & _ & _ & _ & -> & ->).
    split; [intros [=] |]. intros fr' [= <-].
    exists (published fr output_name net), image, net.
    repeat split. exact Hnet.
Qed.

Lemma Detect_keeps_members_witness :
  exists r d frame',
    outcome (Detect TestEngine.lane_detector mkLaneDetectorOptions
               (Some (TestEngine.frame 1920 1080))) = Done (r, d, frame')
    /\ kept_members d = kept_members TestEngine.lane_detector
    /\ image_src_ d = Some {| image_id := 7 |}.
Proof.
  destruct (outcome (Detect TestEngine.lane_detector mkLaneDetectorOptions
                       (Some (TestEngine.frame 1920 1080))))
    as [[[r d] frame'] | msg |] eqn:E;
    try (vm_compute in E; discriminate E).
  exists r, d, frame'. split; [reflexivity |].
  destruct (Detect_keeps_members _ _ _ _ _ _ E) as (Hkept & _ & _).
  split; [exact Hkept |].
  vm_compute in E. injection E as _ <- _. reflexivity.
Defined.

(** X15. When the data provider fails to deliver the image, [Detect] is
    terminated at [CHECK(GetImage ...)]: the provider is the only
    collaborator called, the resize kernel and the network do not run. *)
Theorem Detect_image_failure {Net} `{!Inference Net}
    (this : DenselineLaneDetector Net) (options : LaneDetectorOptions)
    (fr : CameraFrame) (provider : DataProvider) :
  data_provider fr = Some provider ->
  input_width_ this = src_width provider ->
  input_height_ this = src_height provider ->
  GetImage provider (data_provider_image_option_ this) = None ->
  Detect this options (Some fr)
  = ([Call_GetImage (data_provider_image_option_ this)],
     Fatal "Check failed: data_provider->GetImage(data_provider_image_option_, &image_src_)").
Proof.
  intros Hprov Hw Hh Himg. rewrite (run_eta (Detect _ _ _)).
  unfold Detect. run. rewrite Hprov. run.
  rewrite Hw, Hh, !Z.eqb_refl. run. rewrite Himg. run. reflexivity.
Qed.

Lemma Detect_image_failure_witness :
  outcome (Detect TestEngine.lane_detector mkLaneDetectorOptions
             (Some (Scenarios.dark_frame 1920 1080)))
  = Fatal "Check failed: data_provider->GetImage(data_provider_image_option_, &image_src_)".
Proof.
  rewrite (Detect_image_failure TestEngine.lane_detector mkLaneDetectorOptions
             (Scenarios.dark_frame 1920 1080) _ eq_refl eq_refl eq_refl
             eq_refl).
  reflexivity.
Defined.

(** X16. [Detect] does not test the pointers it follows.  A frame without
    a data provider makes it crash at once (in this model: the null
    pointer is dereferenced); a detector without an engine, without an
    input tensor name, or whose engine does not know the first input name
    makes it crash after the image was obtained, before the resize kernel
    and the network run. *)
Theorem Detect_null_dereference {Net} `{!Inference Net}
    (this : DenselineLaneDetector Net) (options : LaneDetectorOptions)
    (fr : CameraFrame) :
  (data_provider fr = None -> Detect this options (Some fr) = ([], Crash))
  /\ (forall provider image,
        data_provider fr = Some provider ->
        input_width_ this = src_width provider ->
        input_height_ this = src_height provider ->
        GetImage provider (data_provider_image_option_ this) = Some image ->
        rt_net_ this = None
        \/ net_inputs_ this = []
        \/ (exists net input_name,
              rt_net_ this = Some net
              /\ net_inputs_ this !! 0%nat = Some input_name
              /\ net_get_blob input_name net = None) ->
        Detect this options (Some fr)
        = ([Call_GetImage (data_provider_image_option_ this)], Crash)).
Proof.
  split.
  - intros Hprov. rewrite (run_eta (Detect _ _ _)).
    unfold Detect. run. rewrite Hprov. reflexivity.
  - intros provider image Hprov Hw Hh Himg Hnull.
    rewrite (run_eta (Detect _ _ _)).
    unfold Detect. run. rewrite Hprov. run.
    rewrite Hw, Hh, !Z.eqb_refl. run. rewrite Himg. run.
    cbn [set_image_src_ rt_net_ net_inputs_].
    destruct Hnull as [Hnet | [Hin | (net & input_name & Hnet & Hin & Hblob)]].
    + rewrite Hnet. reflexivity.
    + rewrite Hin. destruct (rt_net_ this); reflexivity.
    + rewrite Hnet, Hin. run. rewrite Hblob. reflexivity.
Qed.

Lemma Detect_null_dereference_witness :
  Detect Scenarios.without_engine mkLaneDetectorOptions
    (Some (TestEngine.frame 1920 1080))
  = ([Call_GetImage (data_provider_image_option_ Scenarios.without_engine)],
     Crash).
Proof.
  apply (proj2 (Detect_null_dereference Scenarios.without_engine
                  mkLaneDetectorOptions (TestEngine.frame 1920 1080))
           _ {| image_id := 7 |} eq_refl eq_refl eq_refl eq_refl).
  left. reflexivity.
Defined.

(** X17. The configuration reaches the collaborators as the members
    hold it: on a detector [Init] returned [true] for, every later
    [Detect] that returns [true] asks the data provider for the
    configured crop region (offsets and crop size as stored in the 16-bit
    members, cropping on) in the configured colour order, and runs the
    resize kernel with the stored crop width and with the mean values in
    that colour order (b, g, r for BGR; r, g, b for RGB). *)
Theorem Detect_uses_configuration {Net} `{!Inference Net}
    (platform : Platform Net) (this d : DenselineLaneDetector Net)
    (options : LaneDetectorInitOptions) (param : DenselineParam) :
  loaded_param platform options = Some param ->
  outcome (Init platform this options) = Done (true, d) ->
  forall d1, later d d1 ->
  forall opts frame d2 frame',
    outcome (Detect d1 opts frame) = Done (true, d2, frame') ->
    let mp := model_param param in
    exists image input_blob,
      calls (events (Detect d1 opts frame))
      = [ Call_GetImage
            {| target_color := if is_bgr mp then BGR else RGB;
               do_crop := true;
               crop_roi := RectI.mk (stored_offset_x param)
                                    (stored_offset_y param)
                                    (stored_crop_width param)
                                    (stored_crop_height param) |};
          Call_ResizeGPU image input_blob (stored_crop_width param) 0
            (if is_bgr mp then mean_b mp else mean_r mp)
            (mean_g mp)
            (if is_bgr mp then mean_r mp else mean_b mp)
            false 1%Q;
          Call_cudaDeviceSynchronize;
          Call_Infer ].
Proof.
  intros Hparam E d1 Hlater opts frame d2 frame' Edet mp.
  destruct (Init_returned _ _ _ _ _ _ Hparam E) as [_ Hconf].
  destruct Hconf
    as (_ & _ & _ & _ & _ & _ & _ & Hcw & _ & _ & _ & Hmean & Hopt & _).
  apply later_kept in Hlater. unfold kept_members in Hlater.
  injection Hlater as _ _ _ _ _ _ _ Hcw1 _ _ Hmean1 _ Hopt1 _ _.
  apply Detect_Done in Edet as [(_ & [=] & _) | Edet].
  destruct Edet as (fr & provider & image & net & input_name & input_blob
                    & output_name & -> & Hprov & Hw & Hh & Himg & Hnet & Hname
                    & Hblob & Eh & Ew & Hout & _).
  exists image, input_blob.
  rewrite (Detect_succeeds d1 opts fr provider image net input_name
             input_blob output_name) by assumption.
  cbn [events fst calls is_call].
  rewrite Hopt1, Hopt, Hcw1, Hcw, Hmean1, Hmean.
  fold mp. destruct (is_bgr mp); reflexivity.
Qed.

Lemma Detect_uses_configuration_witness :
  exists image input_blob,
    calls (events (Detect TestEngine.lane_detector mkLaneDetectorOptions
                     (Some (TestEngine.frame 1920 1080))))
    = [ Call_GetImage
          {| target_color := BGR; do_crop := true;
             crop_roi := RectI.mk 0 300 1920 480 |};
        Call_ResizeGPU image input_blob 1920 0 95 99 96 false 1%Q;
        Call_cudaDeviceSynchronize;
        Call_Infer ].
Proof.
  assert (E : outcome (Init (TestEngine.platform TestEngine.lane_param)
                         TestEngine.fresh
                         (TestEngine.options TestEngine.hd_camera))
              = Done (true, TestEngine.lane_detector))
    by (vm_compute; reflexivity).
  destruct (outcome (Detect TestEngine.lane_detector mkLaneDetectorOptions
                       (Some (TestEngine.frame 1920 1080))))
    as [[[r d] frame'] | msg |] eqn:Edet;
    try (vm_compute in Edet; discriminate Edet).
  assert (r = true) as -> by (vm_compute in Edet; congruence).
  exact (Detect_uses_configuration
           (TestEngine.platform TestEngine.lane_param) TestEngine.fresh
           TestEngine.lane_detector (TestEngine.options TestEngine.hd_camera)
           TestEngine.lane_param eq_refl E _ (later_now _) _ _ _ _ Edet).
Defined.

(** ** [Init], then [Detect] *)

(** X18. End to end: on a freshly constructed detector for which [Init]
    returned [true], if the engine it holds binds the configured [in_blob]
    to a tensor of the resolved height and width, then [Detect] on a frame
    that reports the native size and whose provider delivers the image
    returns [true], leaves the engine after inference in the detector, and
    publishes the tensor bound to the configured [out_blob]. *)
Theorem Init_then_Detect {Net} `{!Inference Net}
    (platform : Platform Net) (this d : DenselineLaneDetector Net)
    (options : LaneDetectorInitOptions) (param : DenselineParam)
    (net : Net) (input_blob : Blob) (opts : LaneDetectorOptions)
    (fr : CameraFrame) (provider : DataProvider) (image : Image8U) :
  constructed this ->
  loaded_param platform options = Some param ->
  outcome (Init platform this options) = Done (true, d) ->
  rt_net_ d = Some net ->
  net_get_blob (in_blob (net_param param)) net = Some input_blob ->
  height input_blob = resize_height_ d ->
  width input_blob = resize_width_ d ->
  data_provider fr = Some provider ->
  src_width provider = native_width options ->
  src_height provider = native_height options ->
  GetImage provider (data_provider_image_option_ d) = Some image ->
  outcome (Detect d opts (Some fr))
  = Done (true, detected d image net,
          Some (published fr (out_blob (net_param param)) net))
  /\ lane_detected_blob (published fr (out_blob (net_param param)) net)
     = net_get_blob (out_blob (net_param param)) (net_Infer net).
Proof.
  intros (_ & Hin & Hout) Hparam E Hnet Hblob Eh Ew Hprov Hw Hh Himg.
  destruct (Init_returned _ _ _ _ _ _ Hparam E) as [_ Hconf].
  destruct Hconf
    as (_ & _ & Hh' & Hw' & _ & _ & _ & _ & _ & _ & _ & _ & _ & Hin'
        & Hout' & _).
  rewrite Hin in Hin'. rewrite Hout in Hout'. cbn in Hin', Hout'.
  split; [| reflexivity].
  rewrite (Detect_succeeds d opts fr provider image net
             (in_blob (net_param param)) input_blob
             (out_blob (net_param param))); try assumption.
  - reflexivity.
  - congruence.
  - congruence.
  - rewrite Hin'. reflexivity.
  - rewrite Hout'. reflexivity.
Qed.

Lemma Init_then_Detect_witness :
  exists d frame',
    outcome (Detect TestEngine.lane_detector mkLaneDetectorOptions
               (Some (TestEngine.frame 1920 1080))) = Done (true, d, frame').
Proof.
  assert (E : outcome (Init (TestEngine.platform TestEngine.lane_param)
                         TestEngine.fresh
                         (TestEngine.options TestEngine.hd_camera))
              = Done (true, TestEngine.lane_detector))
    by (vm_compute; reflexivity).
  edestruct (Init_then_Detect (TestEngine.platform TestEngine.lane_param)
               TestEngine.fresh TestEngine.lane_detector
               (TestEngine.options TestEngine.hd_camera) TestEngine.lane_param
               (TestEngine.mk ["data"; "conv_out"; "conv_int8"]
                  ({[ "data" := input_shape TestEngine.lane_param ]} ∪ ∅)
                  true 0)
               {| blob_id := 0; channels := 3; height := 240; width := 960 |}
               mkLaneDetectorOptions (TestEngine.frame 1920 1080)
               {| src_width := 1920; src_height := 1080;
                  GetImage := fun _ => Some {| image_id := 7 |} |}
               {| image_id := 7 |}
               (conj eq_refl (conj eq_refl eq_refl)) eq_refl E)
    as [Hdet _].
  1-8: vm_compute; reflexivity.
  do 2 eexists. exact Hdet.
Defined.
